(** * South Asia population and net-migration dashboard: data pipeline

    A shallow embedding of [src/app.py]: the World Bank fetcher
    ([fetch_data]), the reshaper ([process_data] and the outer join that
    builds [merged_df]) and the filter at the head of the Dash callback
    ([update_dashboard]).  Python values are an inductive type, exceptions are
    an explicit result type, the HTTP exchange and the console are a trace in
    a small world-passing monad, and a pandas DataFrame is a list of column
    labels with a list of rows. *)

From Stdlib Require Import ZArith List String Ascii Bool Lia DecimalString.
From Stdlib Require Import SpecFloat.
From Stdlib Require Import DecimalPos Permutation.
Import ListNotations.

Local Set Warnings "-register-all".

Open Scope string_scope.
Open Scope Z_scope.

(** ** Python values and exceptions *)

(** IEEE-754 binary64, as CPython's [float] and numpy's [float64]. *)
Definition float64 := spec_float.
Definition prec64 : Z := 53.
Definition emax64 : Z := 1024.
Definition nan : float64 := S754_nan.

(** The objects [response.json()] can return, which are also the objects a
    DataFrame cell can hold. *)
Inductive pyval : Type :=
| VNone
| VBool (b : bool)
| VInt (z : Z)
| VFloat (f : float64)
| VStr (s : string)
| VList (l : list pyval)
| VDict (d : list (string * pyval)).

Inductive exn : Type :=
| KeyError (key : string)
| IndexError
| TypeError
| ValueError
| OverflowError
| JSONDecodeError.

Inductive result (A : Type) : Type :=
| Ok (a : A)
| Raise (e : exn).
Arguments Ok {A} a.
Arguments Raise {A} e.

Definition rbind {A B} (r : result A) (k : A -> result B) : result B :=
  match r with
  | Ok a => k a
  | Raise e => Raise e
  end.

Notation "'try' x <- r ;; k" := (rbind r (fun x => k))
  (at level 61, x pattern, r at next level, right associativity).

Fixpoint rmap {A B} (f : A -> result B) (l : list A) : result (list B) :=
  match l with
  | [] => Ok []
  | a :: l' => try b <- f a ;; try bs <- rmap f l' ;; Ok (b :: bs)
  end.

(** [str(n)] and [f"{n}"] of an integer. *)
Definition str_of_int (z : Z) : string := NilZero.string_of_int (Z.to_int z).

(** [len(x)]: defined on lists, dicts and strings. *)
Definition py_len (v : pyval) : result Z :=
  match v with
  | VList l => Ok (Z.of_nat (List.length l))
  | VDict d => Ok (Z.of_nat (List.length d))
  | VStr s => Ok (Z.of_nat (String.length s))
  | _ => Raise TypeError
  end.

(** [x[1]]: the second element of a list, the second character of a string;
    a dict decoded from JSON has string keys only, so the integer key is
    missing. *)
Definition py_getitem_1 (v : pyval) : result pyval :=
  match v with
  | VList l => match nth_error l 1 with
               | Some x => Ok x
               | None => Raise IndexError
               end
  | VStr s => match String.get 1 s with
              | Some c => Ok (VStr (String c EmptyString))
              | None => Raise IndexError
              end
  | VDict _ => Raise (KeyError "1")
  | _ => Raise TypeError
  end.

(** ** The fetcher (app.py, lines 9-26) *)

Inductive param : Type :=
| PStr (s : string)
| PInt (z : Z).

Inductive http_method : Type := GET.

Record Request : Type := mkRequest {
  method : http_method;
  url : string;
  params : list (string * param)
}.

(** What the code reads of a [requests.Response]: the status code and the
    decoded body ([None] when the body is not JSON and [.json()] raises). *)
Record Response : Type := mkResponse {
  status_code : Z;
  json : option pyval
}.

Inductive event : Type :=
| Requested (r : Request)
| Printed (line : string).

(** The world outside the process: the remote service and what the process
    has sent and printed so far. *)
Record World : Type := mkWorld {
  remote : Request -> Response;
  trace : list event
}.

Definition IO (A : Type) : Type := World -> World * result A.

Definition ret {A} (a : A) : IO A := fun w => (w, Ok a).

Definition raise {A} (e : exn) : IO A := fun w => (w, Raise e).

Definition bind {A B} (m : IO A) (k : A -> IO B) : IO B :=
  fun w =>
    match m w with
    | (w', Ok a) => k a w'
    | (w', Raise e) => (w', Raise e)
    end.

Definition lift {A} (r : result A) : IO A := fun w => (w, r).

Notation "'do' x <- m ; k" := (bind m (fun x => k))
  (at level 61, x pattern, m at next level, right associativity).
Notation "m >> k" := (bind m (fun _ => k))
  (at level 61, right associativity).

Definition emit (e : event) : IO unit :=
  fun w => (mkWorld (remote w) (trace w ++ [e])%list, Ok tt).

(** [requests.get(url, params=params)]. *)
Definition requests_get (u : string) (ps : list (string * param)) : IO Response :=
  let rq := mkRequest GET u ps in
  fun w => (mkWorld (remote w) (trace w ++ [Requested rq])%list, Ok (remote w rq)).

Definition print (line : string) : IO unit := emit (Printed line).

(** [response.json()]. *)
Definition response_json (r : Response) : IO pyval :=
  match json r with
  | Some v => ret v
  | None => raise JSONDecodeError
  end.

Definition fetch_data (country_codes : list string) (indicator : string)
    (start_year end_year : Z) : IO pyval :=
  let url := "http://api.worldbank.org/v2/country/"
             ++ String.concat ";" country_codes
             ++ "/indicator/" ++ indicator in
  let params := [ ("format", PStr "json");
                  ("date", PStr (str_of_int start_year ++ ":" ++ str_of_int end_year));
                  ("per_page", PInt 5000) ] in
  do response <- requests_get url params ;
  if status_code response =? 200 then
    do data <- response_json response ;
    do n <- lift (py_len data) ;
    if 1 <? n then
      lift (py_getitem_1 data)
    else
      print ("No data found for indicator " ++ indicator ++ "!") >>
      ret (VList [])
  else
    print ("Failed to fetch data for indicator " ++ indicator
           ++ ". HTTP Status code: " ++ str_of_int (status_code response)) >>
    ret (VList []).

(** The request [fetch_data] builds, and the requests found in a trace. *)
Definition base_url : string := "http://api.worldbank.org/v2".

Definition requests_of (t : list event) : list Request :=
  flat_map (fun e => match e with Requested r => [r] | Printed _ => [] end) t.

Definition prints_of (t : list event) : list string :=
  flat_map (fun e => match e with Requested _ => [] | Printed s => [s] end) t.

(** ** pandas: DataFrames *)

(** A DataFrame: its column labels and its rows, each row holding one cell per
    label.  The row index plays no part in this program and is left out. *)
Record DataFrame : Type := mkDataFrame {
  columns : list string;
  rows : list (list pyval)
}.

(** [pd.isna]: [None] and the float NaN are the missing values. *)
Definition isna (v : pyval) : bool :=
  match v with
  | VNone => true
  | VFloat S754_nan => true
  | _ => false
  end.

Definition label_in (c : string) (cs : list string) : bool :=
  existsb (String.eqb c) cs.

Fixpoint index_of (cs : list string) (c : string) : result nat :=
  match cs with
  | [] => Raise (KeyError c)
  | c' :: cs' => if String.eqb c c' then Ok O
                 else try i <- index_of cs' c ;; Ok (S i)
  end.

Definition cell (row : list pyval) (i : nat) : pyval := nth i row (VFloat nan).

(** [row[c]] for a row of [df]. *)
Definition loc (df : DataFrame) (row : list pyval) (c : string) : result pyval :=
  try i <- index_of (columns df) c ;; Ok (cell row i).

Definition dict : Type := list (string * pyval).

Fixpoint dict_get (d : dict) (k : string) : option pyval :=
  match d with
  | [] => None
  | (k', v) :: d' => if String.eqb k k' then Some v else dict_get d' k
  end.

Definition add_label (acc : list string) (k : string) : list string :=
  if label_in k acc then acc else (acc ++ [k])%list.

(** [pd.DataFrame(list_of_dicts)]: the columns are the keys in order of first
    appearance; a key a record lacks gives NaN in its row.  Cells are kept as
    the records give them: pandas also brings the cells of a numeric column
    to one type ([None] to NaN, integers beside floats to floats), which
    [dropna] and [astype] make immaterial in [process_data]. *)
Definition DataFrame_of_records (ds : list dict) : DataFrame :=
  let cols := fold_left (fun acc d => fold_left add_label (map fst d) acc) ds [] in
  mkDataFrame cols
    (map (fun d => map (fun c => match dict_get d c with
                                 | Some v => v
                                 | None => VFloat nan
                                 end) cols) ds).

(** [df[[c1, ..., cn]]]. *)
Definition getitem_columns (df : DataFrame) (cs : list string) : result DataFrame :=
  try idx <- rmap (index_of (columns df)) cs ;;
  Ok (mkDataFrame cs (map (fun row => map (cell row) idx) (rows df))).

(** [df.columns = [...]]. *)
Definition set_columns (df : DataFrame) (cs : list string) : result DataFrame :=
  if Nat.eqb (List.length cs) (List.length (columns df))
  then Ok (mkDataFrame cs (rows df))
  else Raise ValueError.

(** [df.dropna(inplace=True)]: drops every row holding a missing value. *)
Definition dropna (df : DataFrame) : DataFrame :=
  mkDataFrame (columns df)
    (filter (fun row => negb (existsb isna row)) (rows df)).

Fixpoint update_at {A} (f : A -> result A) (i : nat) (l : list A) : result (list A) :=
  match l, i with
  | [], _ => Ok []
  | a :: l', O => try b <- f a ;; Ok (b :: l')
  | a :: l', S i' => try l'' <- update_at f i' l' ;; Ok (a :: l'')
  end.

(** [df[c] = df[c].astype(T)], with [conv] the conversion of one cell. *)
Definition astype (df : DataFrame) (c : string) (conv : pyval -> result pyval)
    : result DataFrame :=
  try i <- index_of (columns df) c ;;
  try rs <- rmap (update_at conv i) (rows df) ;;
  Ok (mkDataFrame (columns df) rs).

(** *** Conversions of one cell *)

Definition is_space (c : ascii) : bool :=
  let n := nat_of_ascii c in
  (Nat.eqb n 32 || (Nat.leb 9 n && Nat.leb n 13))%bool.

Fixpoint lstrip (s : list ascii) : list ascii :=
  match s with
  | c :: s' => if is_space c then lstrip s' else s
  | [] => []
  end.

Definition strip (s : list ascii) : list ascii := rev (lstrip (rev (lstrip s))).

Definition digit_of (c : ascii) : option Z :=
  let n := nat_of_ascii c in
  if (Nat.leb 48 n && Nat.leb n 57)%bool then Some (Z.of_nat (n - 48)) else None.

(** Decimal digits, single underscores allowed between two digits. *)
Fixpoint digits (s : list ascii) (acc : Z) (after_digit : bool) : option Z :=
  match s with
  | [] => if after_digit then Some acc else None
  | c :: s' =>
    match digit_of c with
    | Some d => digits s' (10 * acc + d) true
    | None => if (Ascii.eqb c "_" && after_digit)%bool then digits s' acc false else None
    end
  end.

(** [int(s)] of an ASCII string, base ten. *)
Definition int_of_str (s : string) : result Z :=
  let body := strip (list_ascii_of_string s) in
  let parsed :=
    match body with
    | "-"%char :: ds => option_map Z.opp (digits ds 0 false)
    | "+"%char :: ds => digits ds 0 false
    | ds => digits ds 0 false
    end in
  match parsed with
  | Some z => Ok z
  | None => Raise ValueError
  end.

(** [int(f)]: truncation toward zero. *)
Definition int_of_float (f : float64) : result Z :=
  match f with
  | S754_zero _ => Ok 0
  | S754_finite s m e =>
    let a := if 0 <=? e then Z.shiftl (Zpos m) e else Z.shiftr (Zpos m) (- e) in
    Ok (if s then - a else a)
  | S754_infinity _ => Raise OverflowError
  | S754_nan => Raise ValueError
  end.

(** [float(z)]: rounding to nearest even; an integer beyond the binary64
    range raises. *)
Definition float_of_int (z : Z) : result float64 :=
  match binary_normalize prec64 emax64 z 0 false with
  | S754_zero s => Ok (S754_zero s)
  | S754_finite s m e => Ok (S754_finite s m e)
  | _ => Raise OverflowError
  end.

(** One cell of [series.astype(int)]; the result is an int64. *)
Definition to_int (v : pyval) : result pyval :=
  try z <- match v with
           | VStr s => int_of_str s
           | VInt z => Ok z
           | VBool b => Ok (if b then 1 else 0)
           | VFloat f => int_of_float f
           | _ => Raise TypeError
           end ;;
  if ((- 2 ^ 63 <=? z) && (z <? 2 ^ 63))%bool then Ok (VInt z) else Raise OverflowError.

(** One cell of [series.astype(float)].  The value field of a record holds a
    number or null (see [record] below), so no string reaches this
    conversion; parsing a float from text is not part of the model. *)
Definition to_float (v : pyval) : result pyval :=
  match v with
  | VInt z => try f <- float_of_int z ;; Ok (VFloat f)
  | VFloat f => Ok (VFloat f)
  | VBool b => try f <- float_of_int (if b then 1 else 0) ;; Ok (VFloat f)
  | VNone => Ok (VFloat nan)
  | VStr _ => Raise ValueError
  | _ => Raise TypeError
  end.

(** ** The reshaper, part A: [process_data] (app.py, lines 29-39) *)

Inductive number : Type :=
| NInt (z : Z)
| NFloat (f : float64).

(** One record of the service's answer: the three semantic fields, each
    nullable, and whatever other fields the service sends along. *)
Record record : Type := mkRecord {
  countryiso3code : option string;
  date : option string;
  value : option number;
  other : dict
}.

Definition MetricSeries : Type := list record.

Definition of_option {A} (f : A -> pyval) (o : option A) : pyval :=
  match o with
  | Some a => f a
  | None => VNone
  end.

Definition of_number (n : number) : pyval :=
  match n with
  | NInt z => VInt z
  | NFloat f => VFloat f
  end.

(** The record as the Python dict the JSON decoder builds. *)
Definition fields_of (r : record) : dict :=
  ("countryiso3code", of_option VStr (countryiso3code r))
  :: ("date", of_option VStr (date r))
  :: ("value", of_option of_number (value r))
  :: other r.

(** The series as the second element of the response envelope. *)
Definition series_value (s : MetricSeries) : pyval :=
  VList (map (fun r => VDict (fields_of r)) s).

Definition process_data (raw_data : MetricSeries) : result DataFrame :=
  match raw_data with
  | _ :: _ =>
    let df := DataFrame_of_records (map fields_of raw_data) in
    try df <- getitem_columns df ["countryiso3code"; "date"; "value"] ;;
    try df <- set_columns df ["Country Code"; "Year"; "Value"] ;;
    let df := dropna df in
    try df <- astype df "Year" to_int ;;
    try df <- astype df "Value" to_float ;;
    Ok df
  | [] => Ok (mkDataFrame [] [])
  end.

(** ** The reshaper, part B: [pd.merge(..., how='outer')] (app.py, lines 59-64) *)

(** Equality of two join-key cells.  Missing values match each other; the
    keys of this program are strings and int64 after [process_data]. *)
Definition key_eqb (a b : pyval) : bool :=
  match a, b with
  | VStr s, VStr t => String.eqb s t
  | VInt x, VInt y => Z.eqb x y
  | VBool x, VBool y => Bool.eqb x y
  | VFloat S754_nan, VFloat S754_nan => true
  | VFloat f, VFloat g => SFeqb f g
  | VNone, VNone => true
  | VNone, VFloat S754_nan => true
  | VFloat S754_nan, VNone => true
  | _, _ => false
  end.

Fixpoint keys_eqb (k1 k2 : list pyval) : bool :=
  match k1, k2 with
  | [], [] => true
  | a :: k1', b :: k2' => (key_eqb a b && keys_eqb k1' k2')%bool
  | _, _ => false
  end.

(** Lists and dicts cannot be hashed and so cannot be join keys. *)
Definition unhashable (v : pyval) : bool :=
  match v with
  | VList _ | VDict _ => true
  | _ => false
  end.

Definition key_of (idx : list nat) (row : list pyval) : list pyval :=
  map (cell row) idx.

(** The cells of [row] under the labels of [cs] that are not join keys. *)
Definition non_key_cells (on cs : list string) (row : list pyval) : list pyval :=
  map snd (filter (fun cv => negb (label_in (fst cv) on)) (combine cs row)).

(** The left-hand cells of a row found on the right only: the key columns
    take the right row's keys, every other column is NaN. *)
Definition left_cells_of_right (on lcols rcols : list string) (row : list pyval)
    : list pyval :=
  map (fun c => if label_in c on
                then match index_of rcols c with
                     | Ok i => cell row i
                     | Raise _ => VFloat nan
                     end
                else VFloat nan) lcols.

Definition merge_outer_rows (on lcols rcols : list string) (lk rk : list nat)
    (lrows rrows : list (list pyval)) : list (list pyval) :=
  let n_right := List.length (filter (fun c => negb (label_in c on)) rcols) in
  (flat_map (fun l =>
              match filter (fun r => keys_eqb (key_of lk l) (key_of rk r)) rrows with
              | [] => [(l ++ repeat (VFloat nan) n_right)%list]
              | ms => map (fun r => (l ++ non_key_cells on rcols r)%list) ms
              end) lrows
  ++ flat_map (fun r =>
                 if existsb (fun l => keys_eqb (key_of lk l) (key_of rk r)) lrows
                 then []
                 else [(left_cells_of_right on lcols rcols r
                        ++ non_key_cells on rcols r)%list])
       rrows)%list.

(** The positions of the key labels on both sides; each label is looked up on
    the right, then on the left. *)
Fixpoint merge_keys (lcols rcols on : list string) : result (list nat * list nat) :=
  match on with
  | [] => Ok ([], [])
  | k :: on' =>
    try r <- index_of rcols k ;;
    try l <- index_of lcols k ;;
    try rest <- merge_keys lcols rcols on' ;;
    Ok (l :: fst rest, r :: snd rest)
  end.

(** [pd.merge(left, right, on=on, how='outer', suffixes=suffixes)].  A key
    label missing on either side raises [KeyError].  A label that is not a
    key and occurs on both sides takes the side's suffix.  Rows come out
    left-major here; pandas orders the rows of an outer join by key, in a way
    that differs between its versions, and nothing below depends on the
    order. *)
Definition merge (left right : DataFrame) (on : list string)
    (suffixes : string * string) : result DataFrame :=
  try ks <- merge_keys (columns left) (columns right) on ;;
  let lk := fst ks in
  let rk := snd ks in
  let is_key c := label_in c on in
  let lrest := filter (fun c => negb (is_key c)) (columns left) in
  let rrest := filter (fun c => negb (is_key c)) (columns right) in
  let lname c := if (negb (is_key c) && label_in c rrest)%bool
                 then c ++ fst suffixes else c in
  let rname c := if label_in c lrest then c ++ snd suffixes else c in
  if existsb (fun row => existsb unhashable (key_of lk row)) (rows left)
     || existsb (fun row => existsb unhashable (key_of rk row)) (rows right)
  then Raise TypeError
  else
    Ok (mkDataFrame
          (map lname (columns left) ++ map rname rrest)%list
          (merge_outer_rows on (columns left) (columns right) lk rk
             (rows left) (rows right))).

(** The module-level join of the two processed tables (lines 57-64). *)
Definition merged_df (population_df migration_df : DataFrame) : result DataFrame :=
  merge population_df migration_df ["Country Code"; "Year"]
        ("_Population", "_Net Migration").

(** Lines 50-64 as a whole: both series through [process_data], then the
    join. *)
Definition build_merged (population migration : MetricSeries) : result DataFrame :=
  try population_df <- process_data population ;;
  try migration_df <- process_data migration ;;
  merged_df population_df migration_df.

(** ** The filter of [update_dashboard] (app.py, lines 194-199) *)

(** The module-level state the callback reads. *)
Record Globals : Type := mkGlobals {
  df : DataFrame
}.

(** [df[c]]: one column as a series. *)
Definition getitem_column (d : DataFrame) (c : string) : result (list pyval) :=
  try i <- index_of (columns d) c ;; Ok (map (fun row => cell row i) (rows d)).

(** [series.isin(values)] for a list of strings. *)
Definition isin (s : list pyval) (values : list string) : list bool :=
  map (fun v => match v with
                | VStr c => label_in c values
                | _ => false
                end) s.

(** One cell of [series >= n] and of [series <= n]. *)
Definition cell_ge (v : pyval) (n : Z) : result bool :=
  match v with
  | VInt y => Ok (n <=? y)
  | VBool b => Ok (n <=? (if b then 1 else 0))
  | VFloat f => Ok (SFleb (binary_normalize prec64 emax64 n 0 false) f)
  | _ => Raise TypeError
  end.

Definition cell_le (v : pyval) (n : Z) : result bool :=
  match v with
  | VInt y => Ok (y <=? n)
  | VBool b => Ok ((if b then 1 else 0) <=? n)
  | VFloat f => Ok (SFleb f (binary_normalize prec64 emax64 n 0 false))
  | _ => Raise TypeError
  end.

(** [l[i]] of a Python list. *)
Definition list_getitem {A} (l : list A) (i : nat) : result A :=
  match nth_error l i with
  | Some a => Ok a
  | None => Raise IndexError
  end.

(** [df[mask]]. *)
Definition getitem_mask (d : DataFrame) (mask : list bool) : DataFrame :=
  mkDataFrame (columns d)
    (map fst (filter snd (combine (rows d) mask))).

Definition and_mask (a b : list bool) : list bool :=
  map (fun p => (fst p && snd p)%bool) (combine a b).

(** The first statement of the callback: the rows of the global [df] whose
    country is selected and whose year lies in the selected range.  The
    callback reads [df] and never assigns it. *)
Definition update_dashboard (selected_countries : list string)
    (selected_year_range : list Z) (g : Globals) : Globals * result DataFrame :=
  (g,
   try codes <- getitem_column (df g) "Country Code" ;;
   let m1 := isin codes selected_countries in
   try years <- getitem_column (df g) "Year" ;;
   try lo <- list_getitem selected_year_range 0 ;;
   try m2 <- rmap (fun v => cell_ge v lo) years ;;
   try years' <- getitem_column (df g) "Year" ;;
   try hi <- list_getitem selected_year_range 1 ;;
   try m3 <- rmap (fun v => cell_le v hi) years' ;;
   Ok (getitem_mask (df g) (and_mask (and_mask m1 m2) m3))).

(** ** The shapes the specification names *)

(** A MetricTable: the three columns, and in every row a string, an integer
    and a float that is not NaN. *)
Definition is_metric_row (row : list pyval) : bool :=
  match row with
  | [VStr _; VInt _; VFloat f] => negb (isna (VFloat f))
  | _ => false
  end.

Definition is_MetricTable (t : DataFrame) : bool :=
  ((if list_eq_dec string_dec (columns t) ["Country Code"; "Year"; "Value"]
     then true else false)
   && forallb is_metric_row (rows t))%bool.

Definition merged_columns : list string :=
  ["Country Code"; "Year"; "Value_Population"; "Value_Net Migration"].

(** The [(entity_code, year)] keys of a table. *)
Definition keys (t : DataFrame) : list (list pyval) :=
  map (key_of [0%nat; 1%nat]) (rows t).

(** A MergedTable: the four columns, and in every row a string, an integer
    and two floats, either of which may be NaN. *)
Definition is_merged_row (row : list pyval) : bool :=
  match row with
  | [VStr _; VInt _; VFloat _; VFloat _] => true
  | _ => false
  end.

Definition is_MergedTable (t : DataFrame) : bool :=
  ((if list_eq_dec string_dec (columns t) merged_columns then true else false)
   && forallb is_merged_row (rows t))%bool.

(** The request the specification describes for a fetch. *)
Definition fetch_request (country_codes : list string) (indicator : string)
    (start_year end_year : Z) : Request :=
  mkRequest GET
    (base_url ++ "/country/" ++ String.concat ";" country_codes
     ++ "/indicator/" ++ indicator)
    [ ("format", PStr "json");
      ("date", PStr (str_of_int start_year ++ ":" ++ str_of_int end_year));
      ("per_page", PInt 5000) ].

(** The three selected cells of a record, as line 32 leaves them. *)
Definition selected (r : record) : list pyval :=
  [ of_option VStr (countryiso3code r);
    of_option VStr (date r);
    of_option of_number (value r) ].

Definition no_missing (row : list pyval) : bool := negb (existsb isna row).

(** The rows of a MetricTable, as a proposition. *)
Definition metric_row (row : list pyval) : Prop :=
  exists c y f, row = [VStr c; VInt y; VFloat f] /\ isna (VFloat f) = false.

(** The key of a row: its first two cells. *)
Definition key (row : list pyval) : list pyval := key_of [0%nat; 1%nat] row.

(** The filter of [update_dashboard] read row by row, with the positions of
    the Country Code and Year columns: a comparison that raises keeps no
    row. *)
Definition keep_row (i j : nat) (selected_countries : list string) (lo hi : Z)
    (row : list pyval) : bool :=
  ((match cell row i with
    | VStr c => label_in c selected_countries
    | _ => false
    end)
   && (match cell_ge (cell row j) lo with Ok b => b | Raise _ => false end)
   && (match cell_le (cell row j) hi with Ok b => b | Raise _ => false end))%bool.

(** ** Scenario data *)

(** A float written as the integer it equals. *)
Definition float_lit (z : Z) : float64 := binary_normalize prec64 emax64 z 0 false.

(** One record of the service for Afghanistan in 2020, with further fields
    of which one is null. *)
Definition afg_2020 : record :=
  mkRecord (Some "AFG") (Some "2020") (Some (NInt 38972230))
    [("unit", VStr ""); ("obs_status", VNone); ("decimal", VInt 0)].

(** A record without a value: the service has no figure for that year. *)
Definition ind_2020_null : record :=
  mkRecord (Some "IND") (Some "2020") None [("decimal", VInt 0)].

Definition afg_2020_row : list pyval :=
  [VStr "AFG"; VInt 2020; VFloat (float_lit 38972230)].

Definition population_table : DataFrame :=
  mkDataFrame ["Country Code"; "Year"; "Value"]
    [ afg_2020_row;
      [VStr "IND"; VInt 2020; VFloat (float_lit 1396387127)] ].

Definition migration_table : DataFrame :=
  mkDataFrame ["Country Code"; "Year"; "Value"]
    [ [VStr "AFG"; VInt 2020; VFloat (float_lit 166821)] ].

Definition merged_table : DataFrame :=
  mkDataFrame merged_columns
    [ [VStr "AFG"; VInt 2020; VFloat (float_lit 38972230); VFloat (float_lit 166821)];
      [VStr "IND"; VInt 2020; VFloat (float_lit 1396387127); VFloat nan] ].

(** A service that answers every request with status 500 and no JSON. *)
Definition failing_world : World :=
  mkWorld (fun _ => mkResponse 500 None) [].

(** A service that answers with the two-element envelope of one series. *)
Definition serving_world (s : MetricSeries) : World :=
  mkWorld (fun _ => mkResponse 200 (Some (VList [VDict []; series_value s]))) [].

(** The rows of [T2] whose key no row of [T1] has: the rows the outer join
    appends after those of [T1]. *)
Definition right_only (T1 T2 : DataFrame) : list (list pyval) :=
  filter (fun r => negb (existsb (fun l => keys_eqb (key l) (key r)) (rows T1)))
         (rows T2).

(** ** The outputs of the callback (app.py, lines 201-256) *)

(** [d[k] = v] on a dict: a key already present keeps its place and takes the
    new value. *)
Fixpoint dict_set (d : dict) (k : string) (v : pyval) : dict :=
  match d with
  | [] => [(k, v)]
  | (k', v') :: d' =>
    if String.eqb k k' then (k', v) :: d' else (k', v') :: dict_set d' k v
  end.

(** [dict(items)]. *)
Definition dict_of_items (items : list (string * pyval)) : dict :=
  fold_left (fun d kv => dict_set d (fst kv) (snd kv)) items [].

(** [df.to_dict("records")]: one dict per row, from column label to cell. *)
Definition to_dict_records (d : DataFrame) : list dict :=
  map (fun row => dict_of_items (combine (columns d) row)) (rows d).

(** [[{"name": col, "id": col} for col in df.columns]]. *)
Definition table_columns (d : DataFrame) : list dict :=
  map (fun col => [("name", VStr col); ("id", VStr col)]) (columns d).

Section Callback.

(** The three Plotly Express calls of lines 202-244 and the summary of
    lines 251-254 are library code: each reads the filtered frame and
    returns its result or raises. *)
Variables Figures Summary : Type.
Variable make_figures : DataFrame -> result Figures.
Variable make_summary : DataFrame -> result Summary.

(** The callback from the filter to its return value: the figures, the
    records and column descriptions of the data table, the summary. *)
Definition update_dashboard_outputs (selected_countries : list string)
    (selected_year_range : list Z) (g : Globals)
    : result (Figures * list dict * list dict * Summary) :=
  try filtered_df <- snd (update_dashboard selected_countries selected_year_range g) ;;
  try figures <- make_figures filtered_df ;;
  let data := to_dict_records filtered_df in
  let columns := table_columns filtered_df in
  try summary <- make_summary filtered_df ;;
  Ok (figures, data, columns, summary).

End Callback.

(** A service that answers 200 with the given body. *)
Definition answering_world (body : option pyval) : World :=
  mkWorld (fun _ => mkResponse 200 body) [].

(** The service's answer for an unknown indicator: one message object. *)
Definition message_envelope : pyval :=
  VList [VDict [("message", VStr "The indicator was not found")]].

Definition afg_merged_row : list pyval :=
  [VStr "AFG"; VInt 2020; VFloat (float_lit 38972230); VFloat (float_lit 166821)].

(** * Properties *)

(** ** The fetcher *)

Lemma requests_of_app (t u : list event) :
  requests_of (t ++ u) = (requests_of t ++ requests_of u)%list.
Proof. unfold requests_of. apply flat_map_app. Qed.

Lemma prints_of_app (t u : list event) :
  prints_of (t ++ u) = (prints_of t ++ prints_of u)%list.
Proof. unfold prints_of. apply flat_map_app. Qed.

(** [fetch_data] step by step: the request, then the three ways out. *)
Lemma fetch_data_unfold w codes ind s e :
  fetch_data codes ind s e w =
  let rq := fetch_request codes ind s e in
  let response := remote w rq in
  let w1 := mkWorld (remote w) (trace w ++ [Requested rq]) in
  if status_code response =? 200 then
    match json response with
    | None => (w1, Raise JSONDecodeError)
    | Some data =>
      match py_len data with
      | Raise x => (w1, Raise x)
      | Ok n =>
        if 1 <? n then (w1, py_getitem_1 data)
        else (mkWorld (remote w)
                (trace w1 ++ [Printed ("No data found for indicator " ++ ind ++ "!")]),
              Ok (VList []))
      end
    end
  else
    (mkWorld (remote w)
       (trace w1 ++ [Printed ("Failed to fetch data for indicator " ++ ind
                              ++ ". HTTP Status code: "
                              ++ str_of_int (status_code response))]),
     Ok (VList [])).
Proof.
  unfold fetch_data, fetch_request, base_url, bind, requests_get, response_json,
    print, emit, lift, ret, raise.
  cbn [append].
  destruct (status_code _ =? 200); [|reflexivity].
  destruct (json _) as [data|]; [|reflexivity].
  destruct (py_len data) as [n|x]; [|reflexivity].
  destruct (1 <? n); reflexivity.
Qed.

(** C1. Fail-soft fetch: when the response to the request has a status other
    than 200 (every non-success status is one), or its decoded envelope has a
    length below two, [fetch_data] returns the empty series as a normal
    result: it does not raise. *)
Theorem fetch_data_fail_soft w codes ind s e :
  let response := remote w (fetch_request codes ind s e) in
  status_code response <> 200
  \/ (exists data n, json response = Some data /\ py_len data = Ok n /\ n < 2) ->
  snd (fetch_data codes ind s e w) = Ok (series_value []).
Proof.
  intros response H. rewrite fetch_data_unfold. cbv zeta. fold response.
  destruct (Z.eqb_spec (status_code response) 200) as [E|E]; [|reflexivity].
  destruct H as [H|(data & n & Hj & Hl & Hn)]; [contradiction|].
  rewrite Hj, Hl.
  destruct (Z.ltb_spec 1 n); [lia|reflexivity].
Qed.

(** The failed fetch prints one notice, which names the indicator and the
    status code. *)
Lemma fetch_data_failure_notice w codes ind s e :
  status_code (remote w (fetch_request codes ind s e)) <> 200 ->
  prints_of (trace (fst (fetch_data codes ind s e w))) =
  (prints_of (trace w)
   ++ [ ("Failed to fetch data for indicator " ++ ind ++ ". HTTP Status code: "
         ++ str_of_int (status_code (remote w (fetch_request codes ind s e))))%string
      ])%list.
Proof.
  intros H. rewrite fetch_data_unfold. cbv zeta.
  destruct (Z.eqb_spec (status_code (remote w (fetch_request codes ind s e))) 200)
    as [E|E]; [contradiction|].
  cbn. rewrite !prints_of_app. cbn. now rewrite app_nil_r.
Qed.

(** C9. Every fetch issues exactly one request, an HTTP GET to
    [{base_url}/country/{codes joined by ;}/indicator/{metric}] with the
    query parameters format=json, date={start}:{end} and per_page=5000. *)
Theorem fetch_data_request w codes ind s e :
  requests_of (trace (fst (fetch_data codes ind s e w))) =
  (requests_of (trace w)
   ++ [ mkRequest GET
          (base_url ++ "/country/" ++ String.concat ";" codes
           ++ "/indicator/" ++ ind)
          [ ("format", PStr "json");
            ("date", PStr (str_of_int s ++ ":" ++ str_of_int e));
            ("per_page", PInt 5000) ] ])%list.
Proof.
  rewrite fetch_data_unfold. cbv zeta. fold (fetch_request codes ind s e).
  destruct (status_code _ =? 200).
  - destruct (json _) as [data|]; [|cbn; now rewrite requests_of_app].
    destruct (py_len data) as [n|x]; [|cbn; now rewrite requests_of_app].
    destruct (1 <? n); cbn; rewrite !requests_of_app; cbn;
      now rewrite ?app_nil_r.
  - cbn. rewrite !requests_of_app. cbn. now rewrite app_nil_r.
Qed.

(** ** The result monad and element-wise maps *)

Lemma rmap_Forall2 {A B} (f : A -> result B) l l' :
  rmap f l = Ok l' <-> Forall2 (fun a b => f a = Ok b) l l'.
Proof.
  revert l'. induction l as [|a l IH]; intros l'; cbn.
  - split; intros H; [injection H as <-; constructor|inversion H; reflexivity].
  - split.
    + destruct (f a) as [b|x] eqn:Ea; cbn; [|discriminate].
      destruct (rmap f l) as [bs|x] eqn:El; cbn; [|discriminate].
      intros H; injection H as <-. constructor; [assumption|]. now apply IH.
    + intros H. inversion H as [|a0 b l0 bs Hab Hl]; subst.
      rewrite Hab. cbn. apply IH in Hl. rewrite Hl. reflexivity.
Qed.

Lemma Forall2_In_l {A B} (R : A -> B -> Prop) l l' a :
  Forall2 R l l' -> In a l -> exists b, In b l' /\ R a b.
Proof.
  induction 1 as [|x y l l' Hxy _ IH]; cbn; [contradiction|].
  intros [<-|Hin]; [exists y; auto|].
  destruct (IH Hin) as (b & Hb & Hab). exists b; auto.
Qed.

Lemma Forall2_In_r {A B} (R : A -> B -> Prop) l l' b :
  Forall2 R l l' -> In b l' -> exists a, In a l /\ R a b.
Proof.
  induction 1 as [|x y l l' Hxy _ IH]; cbn; [contradiction|].
  intros [<-|Hin]; [exists x; auto|].
  destruct (IH Hin) as (a & Ha & Hab). exists a; auto.
Qed.

(** ** Building the frame and selecting the three columns *)

Lemma add_labels_extend ks : forall acc,
  exists ext, fold_left add_label ks acc = (acc ++ ext)%list.
Proof.
  induction ks as [|k ks IH]; intros acc; cbn.
  - exists []. now rewrite app_nil_r.
  - unfold add_label at 2. destruct (label_in k acc).
    + apply IH.
    + destruct (IH (acc ++ [k])%list) as (ext & ->).
      exists (k :: ext). now rewrite <- app_assoc.
Qed.

Lemma labels_extend (ds : list dict) : forall acc,
  exists ext,
    fold_left (fun acc d => fold_left add_label (map fst d) acc) ds acc
    = (acc ++ ext)%list.
Proof.
  induction ds as [|d ds IH]; intros acc; cbn.
  - exists []. now rewrite app_nil_r.
  - destruct (add_labels_extend (map fst d) acc) as (e1 & ->).
    destruct (IH (acc ++ e1)%list) as (e2 & ->).
    exists (e1 ++ e2)%list. now rewrite app_assoc.
Qed.

Lemma labels_of_series r s :
  exists ext,
    columns (DataFrame_of_records (map fields_of (r :: s)))
    = "countryiso3code" :: "date" :: "value" :: ext.
Proof.
  unfold DataFrame_of_records. cbn [columns map fold_left fields_of fst].
  change (add_label (add_label (add_label [] "countryiso3code") "date") "value")
    with ["countryiso3code"; "date"; "value"].
  destruct (add_labels_extend (map fst (other r)) ["countryiso3code"; "date"; "value"])
    as (e1 & ->).
  destruct (labels_extend (map fields_of s) (["countryiso3code"; "date"; "value"] ++ e1)%list)
    as (e2 & ->).
  exists (e1 ++ e2)%list. now rewrite <- app_assoc.
Qed.

Lemma select_three r s :
  getitem_columns (DataFrame_of_records (map fields_of (r :: s)))
    ["countryiso3code"; "date"; "value"]
  = Ok (mkDataFrame ["countryiso3code"; "date"; "value"] (map selected (r :: s))).
Proof.
  destruct (labels_of_series r s) as (ext & Hc).
  unfold getitem_columns. rewrite Hc.
  unfold DataFrame_of_records in *. cbn [columns rows] in *. rewrite Hc.
  cbn. do 2 f_equal. f_equal.
  clear Hc. induction s as [|r' s IH]; cbn; [reflexivity|].
  f_equal. exact IH.
Qed.

(** ** [process_data] *)

(** Lines 31-37 on a non-empty series: the three cells of every record, the
    rows without a missing cell, then the two conversions. *)
Lemma process_data_cons r s :
  process_data (r :: s) =
  try rs1 <- rmap (update_at to_int 1) (filter no_missing (map selected (r :: s))) ;;
  try rs2 <- rmap (update_at to_float 2) rs1 ;;
  Ok (mkDataFrame ["Country Code"; "Year"; "Value"] rs2).
Proof.
  unfold process_data. rewrite select_three.
  cbn [rbind]. unfold set_columns. cbn [List.length columns rows Nat.eqb].
  cbn [rbind]. unfold dropna. cbn [columns rows].
  unfold astype. cbn [columns rows].
  change (index_of ["Country Code"; "Year"; "Value"] "Year") with (@Ok nat 1%nat).
  cbn [rbind]. fold no_missing.
  destruct (rmap (update_at to_int 1) _) as [rs1|x]; [|reflexivity].
  cbn [rbind columns rows].
  change (index_of ["Country Code"; "Year"; "Value"] "Value") with (@Ok nat 2%nat).
  cbn [rbind]. destruct (rmap (update_at to_float 2) rs1); reflexivity.
Qed.

Lemma to_int_VInt v v' : to_int v = Ok v' -> exists y, v' = VInt y.
Proof.
  unfold to_int. destruct (match v with VStr _ => _ | _ => _ end) as [z|x];
    cbn [rbind]; [|discriminate].
  destruct (_ && _)%bool; [|discriminate].
  intros H; injection H as <-. now exists z.
Qed.

Lemma float_of_int_not_nan z f : float_of_int z = Ok f -> isna (VFloat f) = false.
Proof.
  unfold float_of_int.
  destruct (binary_normalize prec64 emax64 z 0 false); try discriminate;
    intros H; injection H as <-; reflexivity.
Qed.

Lemma to_float_VFloat v v' :
  to_float v = Ok v' -> exists f, v' = VFloat f /\ (isna v = false -> isna v' = false).
Proof.
  destruct v as [|b|z|f|s|l|d]; cbn; try discriminate.
  - intros H; injection H as <-. exists nan. split; [reflexivity|discriminate].
  - destruct (float_of_int _) as [f|x] eqn:E; cbn; [|discriminate].
    intros H; injection H as <-. exists f. split; [reflexivity|].
    intros _. eapply float_of_int_not_nan, E.
  - destruct (float_of_int z) as [f|x] eqn:E; cbn; [|discriminate].
    intros H; injection H as <-. exists f. split; [reflexivity|].
    intros _. eapply float_of_int_not_nan, E.
  - intros H; injection H as <-. exists f. split; [reflexivity|auto].
Qed.

(** A row of three cells through the two conversions. *)
Lemma convert_three a b c row1 row2 :
  update_at to_int 1 [a; b; c] = Ok row1 ->
  update_at to_float 2 row1 = Ok row2 ->
  exists b' c', to_int b = Ok b' /\ to_float c = Ok c' /\ row2 = [a; b'; c'].
Proof.
  cbn. destruct (to_int b) as [b'|x]; cbn; [|discriminate].
  intros H; injection H as <-. cbn.
  destruct (to_float c) as [c'|x]; cbn; [|discriminate].
  intros H; injection H as <-. now exists b', c'.
Qed.

Lemma no_missing_selected r :
  no_missing (selected r) = true <->
  exists c d n, countryiso3code r = Some c /\ date r = Some d
                /\ value r = Some n /\ isna (of_number n) = false.
Proof.
  unfold no_missing, selected. destruct r as [[c|] [d|] [n|] o]; cbn;
    try (split; [discriminate|intros (? & ? & ? & ? & ? & ? & ?); discriminate]).
  rewrite orb_false_r, negb_true_iff. split.
  - intros H. now exists c, d, n.
  - intros (c' & d' & n' & _ & _ & Hn & H). now injection Hn as <-.
Qed.

(** Each output row comes from a record with its three fields present, and
    each such record gives an output row. *)
Lemma process_data_rows s t :
  process_data s = Ok t ->
  Forall2 (fun r row =>
             exists c d n y f,
               countryiso3code r = Some c /\ date r = Some d /\ value r = Some n
               /\ isna (of_number n) = false
               /\ to_int (VStr d) = Ok (VInt y)
               /\ to_float (of_number n) = Ok (VFloat f)
               /\ isna (VFloat f) = false
               /\ row = [VStr c; VInt y; VFloat f])
          (filter (fun r => no_missing (selected r)) s) (rows t).
Proof.
  destruct s as [|r0 s]; [intros H; injection H as <-; constructor|].
  rewrite process_data_cons.
  destruct (rmap (update_at to_int 1) _) as [rs1|x] eqn:E1; cbn [rbind]; [|discriminate].
  destruct (rmap (update_at to_float 2) rs1) as [rs2|x] eqn:E2; cbn [rbind]; [|discriminate].
  intros H; injection H as <-. cbn [rows].
  apply rmap_Forall2 in E1, E2.
  revert rs1 rs2 E1 E2. generalize (r0 :: s). clear r0 s.
  induction l as [|r l IH]; intros rs1 rs2 E1 E2; cbn in *.
  - inversion E1; subst. inversion E2; subst. constructor.
  - unfold no_missing at 1 in E1. fold (no_missing (selected r)) in E1.
    destruct (no_missing (selected r)) eqn:Hr.
    + inversion E1 as [|? row1 ? rs1' H1 E1']; subst.
      inversion E2 as [|? row2 ? rs2' H2 E2']; subst.
      constructor; [|eapply IH; eassumption].
      apply no_missing_selected in Hr. destruct Hr as (c & d & n & Hc & Hd & Hn & Hna).
      unfold selected in H1. rewrite Hc, Hd, Hn in H1. cbn [of_option] in H1.
      destruct (convert_three _ _ _ _ _ H1 H2) as (b' & c' & Hb & Hc' & ->).
      destruct (to_int_VInt _ _ Hb) as (y & ->).
      destruct (to_float_VFloat _ _ Hc') as (f & -> & Hf).
      exists c, d, n, y, f. auto 10.
    + eapply IH; eassumption.
Qed.

Lemma convert_rows_total l :
  (forall row, In row l ->
     exists a d n y f, row = [a; VStr d; n]
                       /\ to_int (VStr d) = Ok (VInt y)
                       /\ to_float n = Ok (VFloat f)) ->
  exists rs1 rs2,
    rmap (update_at to_int 1) l = Ok rs1
    /\ rmap (update_at to_float 2) rs1 = Ok rs2.
Proof.
  induction l as [|row l IH]; intros H; [now exists [], []|].
  destruct (H row (or_introl eq_refl)) as (a & d & n & y & f & -> & Hy & Hf).
  destruct IH as (rs1 & rs2 & E1 & E2); [intros; apply H; now right|].
  exists ([a; VInt y; n] :: rs1), ([a; VInt y; VFloat f] :: rs2).
  split.
  - change (rmap (update_at to_int 1) ([a; VStr d; n] :: l))
      with (try b <- (try l' <- (try v <- to_int (VStr d) ;; Ok [v; n]) ;; Ok (a :: l')) ;;
            try bs <- rmap (update_at to_int 1) l ;; Ok (b :: bs)).
    rewrite Hy, E1. reflexivity.
  - change (rmap (update_at to_float 2) ([a; VInt y; n] :: rs1))
      with (try b <- (try l' <- (try l'' <- (try v <- to_float n ;; Ok [v]) ;;
                                 Ok (VInt y :: l'')) ;; Ok (a :: l')) ;;
            try bs <- rmap (update_at to_float 2) rs1 ;; Ok (b :: bs)).
    rewrite Hf, E2. reflexivity.
Qed.

(** [process_data] returns a table whenever the year and the value of every
    record that has its three fields can be converted. *)
Lemma process_data_total s :
  (forall r c d n,
     In r s -> countryiso3code r = Some c -> date r = Some d ->
     value r = Some n -> isna (of_number n) = false ->
     (exists y, to_int (VStr d) = Ok (VInt y))
     /\ (exists f, to_float (of_number n) = Ok (VFloat f))) ->
  exists t, process_data s = Ok t.
Proof.
  intros H. destruct s as [|r0 s]; [now eexists|].
  rewrite process_data_cons.
  destruct (convert_rows_total (filter no_missing (map selected (r0 :: s))))
    as (rs1 & rs2 & -> & E2).
  - intros row Hin. apply filter_In in Hin. destruct Hin as [Hin Hk].
    apply in_map_iff in Hin. destruct Hin as (r & <- & Hin).
    apply no_missing_selected in Hk. destruct Hk as (c & d & n & Hc & Hd & Hn & Hna).
    destruct (H r c d n Hin Hc Hd Hn Hna) as [(y & Hy) (f & Hf)].
    exists (VStr c), d, (of_number n), y, f.
    unfold selected. rewrite Hc, Hd, Hn. auto.
  - cbn [rbind]. rewrite E2. now eexists.
Qed.

Lemma loc_metric_row t a b c :
  columns t = ["Country Code"; "Year"; "Value"] ->
  loc t [a; b; c] "Country Code" = Ok a
  /\ loc t [a; b; c] "Year" = Ok b
  /\ loc t [a; b; c] "Value" = Ok c.
Proof. unfold loc. intros ->. repeat split. Qed.

Lemma process_data_columns r s t :
  process_data (r :: s) = Ok t -> columns t = ["Country Code"; "Year"; "Value"].
Proof.
  rewrite process_data_cons.
  destruct (rmap _ _) as [rs1|x]; cbn [rbind]; [|discriminate].
  destruct (rmap _ _) as [rs2|x]; cbn [rbind]; [|discriminate].
  intros H; injection H as <-. reflexivity.
Qed.

(** C5. Null-safety of [process_data]: every row of the table it returns has
    exactly the three cells Country Code, Year and Value, and none of them is
    missing. *)
Theorem process_data_no_nulls s t row :
  process_data s = Ok t ->
  In row (rows t) ->
  exists code year val,
    row = [code; year; val]
    /\ loc t row "Country Code" = Ok code
    /\ loc t row "Year" = Ok year
    /\ loc t row "Value" = Ok val
    /\ isna code = false /\ isna year = false /\ isna val = false.
Proof.
  intros Hp Hin.
  destruct (Forall2_In_r _ _ _ _ (process_data_rows _ _ Hp) Hin)
    as (r & _ & c & d & n & y & f & _ & _ & _ & _ & _ & _ & Hf & ->).
  destruct s as [|r0 s]; [injection Hp as <-; contradiction|].
  destruct (loc_metric_row t (VStr c) (VInt y) (VFloat f)
              (process_data_columns _ _ _ Hp)) as (L1 & L2 & L3).
  exists (VStr c), (VInt y), (VFloat f). auto 10.
Qed.

(** C6. Selection comes before null-dropping: when the year and the value
    of every record that has its three fields can be converted, [process_data]
    returns a table, and a record whose entity code, year and value are
    present gives a row of that table, whatever its other fields hold
    (missing values included). *)
Theorem process_data_keeps_complete_records s r c d n :
  (forall r' c' d' n',
     In r' s -> countryiso3code r' = Some c' -> date r' = Some d' ->
     value r' = Some n' -> isna (of_number n') = false ->
     (exists y, to_int (VStr d') = Ok (VInt y))
     /\ (exists f, to_float (of_number n') = Ok (VFloat f))) ->
  In r s ->
  countryiso3code r = Some c ->
  date r = Some d ->
  value r = Some n ->
  isna (of_number n) = false ->
  exists t y f,
    process_data s = Ok t
    /\ to_int (VStr d) = Ok (VInt y)
    /\ to_float (of_number n) = Ok (VFloat f)
    /\ In [VStr c; VInt y; VFloat f] (rows t).
Proof.
  intros Hconv Hin Hc Hd Hn Hna.
  destruct (process_data_total s Hconv) as (t & Hp).
  assert (Hkeep : In r (filter (fun r => no_missing (selected r)) s)).
  { apply filter_In. split; [assumption|].
    apply no_missing_selected. now exists c, d, n. }
  destruct (Forall2_In_l _ _ _ _ (process_data_rows _ _ Hp) Hkeep)
    as (row & Hrow & c' & d' & n' & y & f & Hc' & Hd' & Hn' & _ & Hy & Hf & _ & ->).
  rewrite Hc in Hc'. rewrite Hd in Hd'. rewrite Hn in Hn'.
  injection Hc' as <-. injection Hd' as <-. injection Hn' as <-.
  now exists t, y, f.
Qed.

(** C7. On the empty series [process_data] returns a frame with no rows and
    no columns either: none of the three labels can be looked up in it. *)
Theorem process_data_empty_no_schema :
  exists t,
    process_data [] = Ok t
    /\ rows t = []
    /\ columns t = []
    /\ is_MetricTable t = false
    /\ index_of (columns t) "Country Code" = Raise (KeyError "Country Code").
Proof. exists (mkDataFrame [] []). repeat split. Qed.

(** ** The outer join *)

Lemma is_MetricTable_spec t :
  is_MetricTable t = true <->
  columns t = ["Country Code"; "Year"; "Value"] /\ Forall metric_row (rows t).
Proof.
  unfold is_MetricTable. rewrite andb_true_iff, forallb_forall, Forall_forall.
  destruct (list_eq_dec string_dec (columns t) _) as [E|E].
  - split; intros [_ H]; (split; [reflexivity || assumption|]); intros row Hin;
      specialize (H row Hin).
    + destruct row as [|[| | | |c| |] [|[| |y| | | |] [|[| | |f| | |] [|]]]];
        try discriminate H.
      exists c, y, f. split; [reflexivity|]. now apply negb_true_iff.
    + destruct H as (c & y & f & -> & Hf). cbn [is_metric_row]. now rewrite Hf.
  - split; [intros [H _]; discriminate|intros [H _]; contradiction].
Qed.

Lemma keys_eqb_metric c y c' y' :
  keys_eqb [VStr c; VInt y] [VStr c'; VInt y'] = true <-> c = c' /\ y = y'.
Proof.
  cbn. rewrite andb_true_r, andb_true_iff, String.eqb_eq, Z.eqb_eq. tauto.
Qed.

Lemma metric_keys_hashable l :
  Forall metric_row l ->
  existsb (fun row => existsb unhashable (key_of [0%nat; 1%nat] row)) l = false.
Proof.
  induction 1 as [|row l (c & y & f & -> & _) _ IH]; [reflexivity|].
  cbn. exact IH.
Qed.

Lemma merged_df_unfold l r :
  Forall metric_row l -> Forall metric_row r ->
  merged_df (mkDataFrame ["Country Code"; "Year"; "Value"] l)
            (mkDataFrame ["Country Code"; "Year"; "Value"] r)
  = Ok (mkDataFrame merged_columns
          (merge_outer_rows ["Country Code"; "Year"]
             ["Country Code"; "Year"; "Value"] ["Country Code"; "Year"; "Value"]
             [0%nat; 1%nat] [0%nat; 1%nat] l r)).
Proof.
  intros Hl Hr. unfold merged_df, merge. cbn [columns rows].
  change (merge_keys ["Country Code"; "Year"; "Value"]
            ["Country Code"; "Year"; "Value"] ["Country Code"; "Year"])
    with (@Ok (list nat * list nat) ([0%nat; 1%nat], [0%nat; 1%nat])).
  cbn [rbind fst snd]. rewrite (metric_keys_hashable l Hl), (metric_keys_hashable r Hr).
  reflexivity.
Qed.

(** The rows of the join of two tables of metric rows: the pairs of rows
    that agree on the key, the left rows without a partner and the right
    rows without a partner, the absent side filled with NaN. *)
Lemma merge_outer_rows_spec l r :
  Forall metric_row l -> Forall metric_row r ->
  forall row,
    In row (merge_outer_rows ["Country Code"; "Year"]
              ["Country Code"; "Year"; "Value"] ["Country Code"; "Year"; "Value"]
              [0%nat; 1%nat] [0%nat; 1%nat] l r)
    <->
    (exists a b v w, row = [a; b; v; w] /\ In [a; b; v] l /\ In [a; b; w] r)
    \/ (exists a b v, row = [a; b; v; VFloat nan] /\ In [a; b; v] l
                      /\ ~ In [a; b] (map key r))
    \/ (exists a b w, row = [a; b; VFloat nan; w] /\ In [a; b; w] r
                      /\ ~ In [a; b] (map key l)).
Proof.
  intros Hl Hr row. rewrite Forall_forall in Hl, Hr.
  unfold merge_outer_rows. cbv zeta. rewrite in_app_iff, !in_flat_map. split.
  - intros [(lrow & Hin & H)|(rrow & Hin & H)].
    + destruct (Hl _ Hin) as (c & y & f & -> & _).
      destruct (filter _ r) as [|m ms] eqn:Ef.
      * destruct H as [<-|[]]. right; left.
        exists (VStr c), (VInt y), (VFloat f). split; [reflexivity|].
        split; [assumption|]. intros Hk. apply in_map_iff in Hk.
        destruct Hk as (rrow & Hk & Hr').
        destruct (Hr _ Hr') as (c' & y' & f' & -> & _).
        injection Hk as -> ->.
        assert (Hm : In [VStr c; VInt y; VFloat f']
                       (filter (fun r0 => keys_eqb (key_of [0%nat; 1%nat]
                                                      [VStr c; VInt y; VFloat f])
                                            (key_of [0%nat; 1%nat] r0)) r)).
        { apply filter_In. split; [assumption|]. now apply keys_eqb_metric. }
        rewrite Ef in Hm. contradiction.
      * rewrite <- Ef in H. apply in_map_iff in H.
        destruct H as (rrow & <- & Hm). apply filter_In in Hm.
        destruct Hm as (Hr' & Hk).
        destruct (Hr _ Hr') as (c' & y' & f' & -> & _).
        apply keys_eqb_metric in Hk. destruct Hk as [<- <-].
        left. exists (VStr c), (VInt y), (VFloat f), (VFloat f'). auto.
    + destruct (Hr _ Hin) as (c & y & f & -> & _).
      destruct (existsb _ l) eqn:Ee; [contradiction|].
      destruct H as [<-|[]]. right; right.
      exists (VStr c), (VInt y), (VFloat f). split; [reflexivity|].
      split; [assumption|]. intros Hk. apply in_map_iff in Hk.
      destruct Hk as (lrow & Hk & Hl').
      destruct (Hl _ Hl') as (c' & y' & f' & -> & _).
      injection Hk as -> ->.
      assert (Ht : existsb (fun l0 => keys_eqb (key_of [0%nat; 1%nat] l0)
                                        (key_of [0%nat; 1%nat]
                                           [VStr c; VInt y; VFloat f])) l = true).
      { apply existsb_exists. exists [VStr c; VInt y; VFloat f'].
        split; [assumption|]. now apply keys_eqb_metric. }
      rewrite Ht in Ee. discriminate.
  - intros [(a & b & v & w & -> & Hinl & Hinr)
           |[(a & b & v & -> & Hinl & Hk)|(a & b & w & -> & Hinr & Hk)]].
    + left. exists [a; b; v]. split; [assumption|].
      destruct (Hl _ Hinl) as (c & y & f & E & _). injection E as -> -> ->.
      destruct (Hr _ Hinr) as (c' & y' & f' & E & _). injection E as <- <- ->.
      assert (Hm : In [VStr c; VInt y; VFloat f']
                     (filter (fun r0 => keys_eqb (key_of [0%nat; 1%nat]
                                                    [VStr c; VInt y; VFloat f])
                                          (key_of [0%nat; 1%nat] r0)) r)).
      { apply filter_In. split; [assumption|]. now apply keys_eqb_metric. }
      destruct (filter _ r) as [|m ms] eqn:Ef; [contradiction|].
      apply in_map_iff. exists [VStr c; VInt y; VFloat f']. split; [reflexivity|assumption].
    + left. exists [a; b; v]. split; [assumption|].
      destruct (Hl _ Hinl) as (c & y & f & E & _). injection E as -> -> ->.
      destruct (filter _ r) as [|m ms] eqn:Ef; [now left|].
      exfalso. apply Hk.
      assert (Hm : In m (m :: ms)) by now left.
      rewrite <- Ef in Hm. apply filter_In in Hm. destruct Hm as (Hr' & Hkm).
      destruct (Hr _ Hr') as (c' & y' & f' & -> & _).
      apply keys_eqb_metric in Hkm. destruct Hkm as [<- <-].
      apply in_map_iff. exists [VStr c; VInt y; VFloat f']. now split.
    + right. exists [a; b; w]. split; [assumption|].
      destruct (Hr _ Hinr) as (c & y & f & E & _). injection E as -> -> ->.
      destruct (existsb _ l) eqn:Ee; [|now left].
      exfalso. apply Hk. apply existsb_exists in Ee.
      destruct Ee as (lrow & Hl' & Hkm).
      destruct (Hl _ Hl') as (c' & y' & f' & -> & _).
      apply keys_eqb_metric in Hkm. destruct Hkm as [-> ->].
      apply in_map_iff. exists [VStr c; VInt y; VFloat f']. now split.
Qed.

(** The join of two MetricTables succeeds, has the four merged columns, and
    its rows are those of [merge_outer_rows_spec]. *)
Lemma merged_df_spec T1 T2 :
  is_MetricTable T1 = true -> is_MetricTable T2 = true ->
  exists M,
    merged_df T1 T2 = Ok M
    /\ columns M = merged_columns
    /\ forall row,
        In row (rows M) <->
        (exists a b v w, row = [a; b; v; w] /\ In [a; b; v] (rows T1)
                         /\ In [a; b; w] (rows T2))
        \/ (exists a b v, row = [a; b; v; VFloat nan] /\ In [a; b; v] (rows T1)
                          /\ ~ In [a; b] (keys T2))
        \/ (exists a b w, row = [a; b; VFloat nan; w] /\ In [a; b; w] (rows T2)
                          /\ ~ In [a; b] (keys T1)).
Proof.
  intros H1 H2. apply is_MetricTable_spec in H1, H2.
  destruct T1 as [c1 l], T2 as [c2 r]. cbn [columns rows] in *.
  destruct H1 as [-> Hl], H2 as [-> Hr].
  eexists. split; [apply merged_df_unfold; assumption|].
  split; [reflexivity|]. cbn [rows]. intros row.
  apply merge_outer_rows_spec; assumption.
Qed.

Lemma loc_merged_row M a b v w :
  columns M = merged_columns ->
  loc M [a; b; v; w] "Value_Population" = Ok v
  /\ loc M [a; b; v; w] "Value_Net Migration" = Ok w.
Proof. unfold loc. intros ->. split; reflexivity. Qed.

Lemma metric_rows_of T row :
  is_MetricTable T = true -> In row (rows T) -> metric_row row.
Proof.
  intros H Hin. apply is_MetricTable_spec in H. destruct H as [_ H].
  rewrite Forall_forall in H. auto.
Qed.

(** Whether a key occurs among the keys of a MetricTable can be decided. *)
Lemma metric_key_dec T c y :
  is_MetricTable T = true ->
  (exists f, In [VStr c; VInt y; VFloat f] (rows T))
  \/ ~ In [VStr c; VInt y] (keys T).
Proof.
  intros H.
  destruct (existsb (fun row => keys_eqb [VStr c; VInt y] (key row)) (rows T)) eqn:E.
  - left. apply existsb_exists in E. destruct E as (row & Hin & Hk).
    destruct (metric_rows_of _ _ H Hin) as (c' & y' & f & -> & _).
    apply keys_eqb_metric in Hk. destruct Hk as [<- <-]. now exists f.
  - right. intros Hin. apply in_map_iff in Hin. destruct Hin as (row & Hk & Hin).
    assert (Ht : existsb (fun row => keys_eqb [VStr c; VInt y] (key row)) (rows T) = true).
    { apply existsb_exists. exists row. split; [assumption|].
      destruct (metric_rows_of _ _ H Hin) as (c' & y' & f & -> & _).
      injection Hk as -> ->. now apply keys_eqb_metric. }
    rewrite Ht in E. discriminate.
Qed.

(** C3. Merge completeness: the join of two MetricTables succeeds, its keys
    are exactly the keys of the one table or the other, and in a row whose
    key one table lacks, that table's metric is NaN (the missing value), not
    a number. *)
Theorem merged_df_keys_union T1 T2 :
  is_MetricTable T1 = true -> is_MetricTable T2 = true ->
  exists M,
    merged_df T1 T2 = Ok M
    /\ (forall k, In k (keys M) <-> In k (keys T1) \/ In k (keys T2))
    /\ (forall row, In row (rows M) -> ~ In (key row) (keys T2) ->
          loc M row "Value_Net Migration" = Ok (VFloat nan))
    /\ (forall row, In row (rows M) -> ~ In (key row) (keys T1) ->
          loc M row "Value_Population" = Ok (VFloat nan)).
Proof.
  intros H1 H2. destruct (merged_df_spec T1 T2 H1 H2) as (M & HM & Hc & Hrows).
  exists M. split; [assumption|]. split; [|split].
  - intros k. unfold keys at 1. rewrite in_map_iff. split.
    + intros (row & <- & Hin). apply Hrows in Hin.
      destruct Hin as [(a & b & v & w & -> & Hl & _)
                      |[(a & b & v & -> & Hl & _)|(a & b & w & -> & Hr & _)]].
      * left. apply in_map_iff. now exists [a; b; v].
      * left. apply in_map_iff. now exists [a; b; v].
      * right. apply in_map_iff. now exists [a; b; w].
    + intros [Hk|Hk]; apply in_map_iff in Hk; destruct Hk as (src & <- & Hin).
      * destruct (metric_rows_of _ _ H1 Hin) as (c & y & f & -> & _).
        destruct (metric_key_dec T2 c y H2) as [(g & Hg)|Hn].
        -- exists [VStr c; VInt y; VFloat f; VFloat g]. split; [reflexivity|].
           apply Hrows. left. now exists (VStr c), (VInt y), (VFloat f), (VFloat g).
        -- exists [VStr c; VInt y; VFloat f; VFloat nan]. split; [reflexivity|].
           apply Hrows. right; left. now exists (VStr c), (VInt y), (VFloat f).
      * destruct (metric_rows_of _ _ H2 Hin) as (c & y & g & -> & _).
        destruct (metric_key_dec T1 c y H1) as [(f & Hf)|Hn].
        -- exists [VStr c; VInt y; VFloat f; VFloat g]. split; [reflexivity|].
           apply Hrows. left. now exists (VStr c), (VInt y), (VFloat f), (VFloat g).
        -- exists [VStr c; VInt y; VFloat nan; VFloat g]. split; [reflexivity|].
           apply Hrows. right; right. now exists (VStr c), (VInt y), (VFloat g).
  - intros row Hin Hk. apply Hrows in Hin.
    destruct Hin as [(a & b & v & w & -> & _ & Hr)
                    |[(a & b & v & -> & _ & _)|(a & b & w & -> & Hr & _)]].
    + exfalso. apply Hk. apply in_map_iff. now exists [a; b; w].
    + apply (loc_merged_row M a b v (VFloat nan) Hc).
    + exfalso. apply Hk. apply in_map_iff. now exists [a; b; w].
  - intros row Hin Hk. apply Hrows in Hin.
    destruct Hin as [(a & b & v & w & -> & Hl & _)
                    |[(a & b & v & -> & Hl & _)|(a & b & w & -> & _ & _)]].
    + exfalso. apply Hk. apply in_map_iff. now exists [a; b; v].
    + exfalso. apply Hk. apply in_map_iff. now exists [a; b; v].
    + apply (loc_merged_row M a b (VFloat nan) w Hc).
Qed.

(** C4. Merge value fidelity: for a key that occurs in exactly one of the two
    MetricTables, every merged row with that key carries the Value of a
    source row with that key under the table's metric and NaN under the other
    metric, and every source row with that key has such a merged row. *)
Theorem merged_df_value_fidelity T1 T2 k :
  is_MetricTable T1 = true -> is_MetricTable T2 = true ->
  exists M,
    merged_df T1 T2 = Ok M
    /\ (In k (keys T1) -> ~ In k (keys T2) ->
        (forall row, In row (rows M) -> key row = k ->
           (exists src, In src (rows T1) /\ key src = k
                        /\ loc M row "Value_Population" = loc T1 src "Value")
           /\ loc M row "Value_Net Migration" = Ok (VFloat nan))
        /\ (forall src, In src (rows T1) -> key src = k ->
              exists row, In row (rows M) /\ key row = k
                          /\ loc M row "Value_Population" = loc T1 src "Value"
                          /\ loc M row "Value_Net Migration" = Ok (VFloat nan)))
    /\ (In k (keys T2) -> ~ In k (keys T1) ->
        (forall row, In row (rows M) -> key row = k ->
           (exists src, In src (rows T2) /\ key src = k
                        /\ loc M row "Value_Net Migration" = loc T2 src "Value")
           /\ loc M row "Value_Population" = Ok (VFloat nan))
        /\ (forall src, In src (rows T2) -> key src = k ->
              exists row, In row (rows M) /\ key row = k
                          /\ loc M row "Value_Net Migration" = loc T2 src "Value"
                          /\ loc M row "Value_Population" = Ok (VFloat nan))).
Proof.
  intros H1 H2. destruct (merged_df_spec T1 T2 H1 H2) as (M & HM & Hc & Hrows).
  pose proof (proj1 (is_MetricTable_spec T1) H1) as [Hc1 _].
  pose proof (proj1 (is_MetricTable_spec T2) H2) as [Hc2 _].
  exists M. split; [assumption|]. split.
  - intros _ Hn2. split.
    + intros row Hin Hk. apply Hrows in Hin.
      destruct Hin as [(a & b & v & w & -> & _ & Hr)
                      |[(a & b & v & -> & Hl & _)|(a & b & w & -> & Hr & _)]].
      * exfalso. apply Hn2. rewrite <- Hk. apply in_map_iff. now exists [a; b; w].
      * destruct (loc_merged_row M a b v (VFloat nan) Hc) as [L1 L2].
        split; [|assumption]. exists [a; b; v]. repeat split; try assumption.
        rewrite L1. symmetry. apply (loc_metric_row T1 a b v Hc1).
      * exfalso. apply Hn2. rewrite <- Hk. apply in_map_iff. now exists [a; b; w].
    + intros src Hin Hk.
      destruct (metric_rows_of _ _ H1 Hin) as (c & y & f & -> & _).
      exists [VStr c; VInt y; VFloat f; VFloat nan].
      destruct (loc_merged_row M (VStr c) (VInt y) (VFloat f) (VFloat nan) Hc) as [L1 L2].
      split; [|split; [assumption|split; [|assumption]]].
      * apply Hrows. right; left. exists (VStr c), (VInt y), (VFloat f).
        split; [reflexivity|]. split; [assumption|]. now rewrite <- Hk in Hn2.
      * rewrite L1. symmetry. apply (loc_metric_row T1 _ _ _ Hc1).
  - intros _ Hn1. split.
    + intros row Hin Hk. apply Hrows in Hin.
      destruct Hin as [(a & b & v & w & -> & Hl & _)
                      |[(a & b & v & -> & Hl & _)|(a & b & w & -> & Hr & _)]].
      * exfalso. apply Hn1. rewrite <- Hk. apply in_map_iff. now exists [a; b; v].
      * exfalso. apply Hn1. rewrite <- Hk. apply in_map_iff. now exists [a; b; v].
      * destruct (loc_merged_row M a b (VFloat nan) w Hc) as [L1 L2].
        split; [|assumption]. exists [a; b; w]. repeat split; try assumption.
        rewrite L2. symmetry. apply (loc_metric_row T2 a b w Hc2).
    + intros src Hin Hk.
      destruct (metric_rows_of _ _ H2 Hin) as (c & y & g & -> & _).
      exists [VStr c; VInt y; VFloat nan; VFloat g].
      destruct (loc_merged_row M (VStr c) (VInt y) (VFloat nan) (VFloat g) Hc) as [L1 L2].
      split; [|split; [assumption|split; [|assumption]]].
      * apply Hrows. right; right. exists (VStr c), (VInt y), (VFloat g).
        split; [reflexivity|]. split; [assumption|]. now rewrite <- Hk in Hn1.
      * rewrite L2. symmetry. apply (loc_metric_row T2 _ _ _ Hc2).
Qed.

(** C2. With an empty migration series the join does not succeed: whenever
    the population series is processed without error, the join raises
    [KeyError] on the first key label, because the frame [process_data] makes
    of an empty series has no columns. *)
Theorem build_merged_empty_migration population :
  build_merged population [] =
  try _ <- process_data population ;; Raise (KeyError "Country Code").
Proof.
  unfold build_merged. destruct population as [|r s]; [reflexivity|].
  destruct (process_data (r :: s)) as [t|x] eqn:E; [|reflexivity].
  cbn [rbind process_data]. apply process_data_columns in E.
  unfold merged_df, merge. rewrite E. reflexivity.
Qed.

(** ** The filter *)

Lemma label_in_spec c cs : label_in c cs = true <-> In c cs.
Proof.
  unfold label_in. rewrite existsb_exists. split.
  - intros (x & Hin & E). apply String.eqb_eq in E. now subst.
  - intros Hin. exists c. split; [assumption|apply String.eqb_refl].
Qed.

(** The three masks combined select the rows [keep_row] keeps. *)
Lemma mask_rowwise i j cs lo hi l : forall m2 m3,
  rmap (fun v => cell_ge v lo) (map (fun row => cell row j) l) = Ok m2 ->
  rmap (fun v => cell_le v hi) (map (fun row => cell row j) l) = Ok m3 ->
  map fst (filter snd
             (combine l (and_mask (and_mask (isin (map (fun row => cell row i) l) cs)
                                            m2) m3)))
  = filter (keep_row i j cs lo hi) l.
Proof.
  induction l as [|row l IH]; intros m2 m3; cbn [map rmap].
  - intros H2 H3. injection H2 as <-. injection H3 as <-. reflexivity.
  - unfold keep_row at 1. cbn [filter].
    destruct (cell_ge (cell row j) lo) as [b2|x]; cbn [rbind]; [|discriminate].
    destruct (rmap _ _) as [m2'|x] eqn:E2; cbn [rbind]; [|discriminate].
    intros H2; injection H2 as <-.
    destruct (cell_le (cell row j) hi) as [b3|x]; cbn [rbind]; [|discriminate].
    destruct (rmap (fun v => cell_le v hi) _) as [m3'|x] eqn:E3; cbn [rbind];
      [|discriminate].
    intros H3; injection H3 as <-.
    specialize (IH m2' m3' eq_refl eq_refl).
    unfold keep_row. cbn [isin map and_mask combine fst snd filter].
    fold (isin (map (fun row => cell row i) l) cs).
    fold (and_mask (isin (map (fun row => cell row i) l) cs) m2').
    fold (and_mask (and_mask (isin (map (fun row => cell row i) l) cs) m2') m3').
    destruct (_ && b2 && b3)%bool; cbn [map fst]; now rewrite IH.
Qed.

Lemma rmap_total {A B} (f : A -> result B) l :
  (forall a, In a l -> exists b, f a = Ok b) -> exists l', rmap f l = Ok l'.
Proof.
  induction l as [|a l IH]; intros H; cbn; [now exists []|].
  destruct (H a (or_introl eq_refl)) as (b & ->).
  destruct IH as (l' & ->); [intros; apply H; now right|].
  now exists (b :: l').
Qed.

(** The filter as a whole: when both column lookups, both bounds and every
    comparison succeed, and only then, the callback returns the rows
    [keep_row] keeps, under the columns of [df]. *)
Lemma update_dashboard_rowwise cs yr g f :
  snd (update_dashboard cs yr g) = Ok f <->
  exists i j lo hi,
    index_of (columns (df g)) "Country Code" = Ok i
    /\ index_of (columns (df g)) "Year" = Ok j
    /\ nth_error yr 0 = Some lo /\ nth_error yr 1 = Some hi
    /\ (forall row, In row (rows (df g)) ->
          exists b2 b3, cell_ge (cell row j) lo = Ok b2
                        /\ cell_le (cell row j) hi = Ok b3)
    /\ f = mkDataFrame (columns (df g)) (filter (keep_row i j cs lo hi) (rows (df g))).
Proof.
  unfold update_dashboard, getitem_column, list_getitem. cbn [snd]. split.
  - destruct (index_of _ "Country Code") as [i|x]; cbn [rbind]; [|discriminate].
    destruct (index_of _ "Year") as [j|x]; cbn [rbind]; [|discriminate].
    destruct (nth_error yr 0) as [lo|]; cbn [rbind]; [|discriminate].
    destruct (rmap (fun v => cell_ge v lo) _) as [m2|x] eqn:E2; cbn [rbind];
      [|discriminate].
    destruct (nth_error yr 1) as [hi|]; cbn [rbind]; [|discriminate].
    destruct (rmap (fun v => cell_le v hi) _) as [m3|x] eqn:E3; cbn [rbind];
      [|discriminate].
    intros H; injection H as <-. exists i, j, lo, hi. repeat split.
    + intros row Hin.
      apply rmap_Forall2 in E2, E3.
      destruct (Forall2_In_l _ _ _ (cell row j) E2) as (b2 & _ & H2);
        [apply in_map_iff; now exists row|].
      destruct (Forall2_In_l _ _ _ (cell row j) E3) as (b3 & _ & H3);
        [apply in_map_iff; now exists row|].
      now exists b2, b3.
    + unfold getitem_mask. f_equal. now apply mask_rowwise.
  - intros (i & j & lo & hi & -> & -> & -> & -> & Hcmp & ->). cbn [rbind].
    destruct (rmap_total (fun v => cell_ge v lo) (map (fun row => cell row j) (rows (df g))))
      as (m2 & E2).
    { intros v Hv. apply in_map_iff in Hv. destruct Hv as (row & <- & Hin).
      destruct (Hcmp row Hin) as (b2 & _ & H2 & _). now exists b2. }
    destruct (rmap_total (fun v => cell_le v hi) (map (fun row => cell row j) (rows (df g))))
      as (m3 & E3).
    { intros v Hv. apply in_map_iff in Hv. destruct Hv as (row & <- & Hin).
      destruct (Hcmp row Hin) as (_ & b3 & _ & H3). now exists b3. }
    rewrite E2. cbn [rbind]. rewrite E3. cbn [rbind].
    unfold getitem_mask. do 2 f_equal. now apply mask_rowwise.
Qed.

Lemma filter_idem {A} (p : A -> bool) l : filter p (filter p l) = filter p l.
Proof.
  induction l as [|a l IH]; cbn; [reflexivity|].
  destruct (p a) eqn:E; cbn; [rewrite E; now f_equal|assumption].
Qed.

(** C8. Filter purity: the callback leaves the module-level table as it
    found it, a second call with the same arguments returns the same result,
    and filtering the filtered table once more changes nothing. *)
Theorem update_dashboard_pure cs yr g :
  fst (update_dashboard cs yr g) = g
  /\ update_dashboard cs yr (fst (update_dashboard cs yr g)) = update_dashboard cs yr g
  /\ (forall f, snd (update_dashboard cs yr g) = Ok f ->
                snd (update_dashboard cs yr (mkGlobals f)) = Ok f).
Proof.
  split; [reflexivity|]. split; [reflexivity|].
  intros f H. apply update_dashboard_rowwise in H.
  destruct H as (i & j & lo & hi & Hi & Hj & Hlo & Hhi & Hcmp & ->).
  apply update_dashboard_rowwise. exists i, j, lo, hi. cbn [df columns rows].
  repeat split; try assumption.
  - intros row Hin. apply filter_In in Hin. now apply Hcmp.
  - now rewrite filter_idem.
Qed.

Lemma is_MergedTable_spec t :
  is_MergedTable t = true <->
  columns t = merged_columns
  /\ Forall (fun row => exists c y v w, row = [VStr c; VInt y; VFloat v; VFloat w])
            (rows t).
Proof.
  unfold is_MergedTable. rewrite andb_true_iff, forallb_forall, Forall_forall.
  destruct (list_eq_dec string_dec (columns t) _) as [E|E].
  - split; intros [_ H]; (split; [reflexivity || assumption|]); intros row Hin;
      specialize (H row Hin).
    + destruct row as [|[| | | |c| |] [|[| |y| | | |] [|[| | |v| | |]
                        [|[| | |w| | |] [|]]]]]; try discriminate H.
      now exists c, y, v, w.
    + destruct H as (c & y & v & w & ->). reflexivity.
  - split; [intros [H _]; discriminate|intros [H _]; contradiction].
Qed.

(** C10. The year range is inclusive at both ends: on a MergedTable the
    callback returns exactly the rows whose country code is selected and
    whose year [y] satisfies [lo <= y <= hi]; a row of a selected country
    whose year equals either bound of a range [lo <= hi] is kept. *)
Theorem update_dashboard_inclusive cs lo hi g :
  is_MergedTable (df g) = true ->
  exists f,
    update_dashboard cs [lo; hi] g = (g, Ok f)
    /\ columns f = columns (df g)
    /\ (forall row,
          In row (rows f) <->
          In row (rows (df g))
          /\ exists c y v w, row = [VStr c; VInt y; v; w]
                             /\ In c cs /\ lo <= y <= hi)
    /\ (lo <= hi -> forall c y v w,
          In [VStr c; VInt y; v; w] (rows (df g)) -> In c cs ->
          y = lo \/ y = hi -> In [VStr c; VInt y; v; w] (rows f)).
Proof.
  intros H. apply is_MergedTable_spec in H. destruct H as [Hc Hrows].
  rewrite Forall_forall in Hrows.
  set (f := mkDataFrame (columns (df g))
              (filter (keep_row 0 1 cs lo hi) (rows (df g)))).
  assert (Hf : snd (update_dashboard cs [lo; hi] g) = Ok f).
  { apply update_dashboard_rowwise. exists 0%nat, 1%nat, lo, hi.
    unfold f. rewrite Hc. repeat split.
    intros row Hin. destruct (Hrows row Hin) as (c & y & v & w & ->).
    cbn. eauto. }
  assert (Hkeep : forall row,
             In row (rows f) <->
             In row (rows (df g))
             /\ exists c y v w, row = [VStr c; VInt y; v; w]
                                /\ In c cs /\ lo <= y <= hi).
  { intros row. unfold f. cbn [rows]. rewrite filter_In. split.
    - intros [Hin Hk]. split; [assumption|].
      destruct (Hrows row Hin) as (c & y & v & w & ->).
      unfold keep_row in Hk. cbn in Hk.
      apply andb_true_iff in Hk. destruct Hk as [Hk H3].
      apply andb_true_iff in Hk. destruct Hk as [H1 H2].
      apply label_in_spec in H1. apply Z.leb_le in H2, H3.
      exists c, y, (VFloat v), (VFloat w). auto.
    - intros [Hin (c & y & v & w & -> & H1 & H2 & H3)]. split; [assumption|].
      unfold keep_row. cbn. apply label_in_spec in H1. apply Z.leb_le in H2, H3.
      now rewrite H1, H2, H3. }
  exists f. split; [|split; [reflexivity|split; [exact Hkeep|]]].
  - unfold update_dashboard in *. cbn [snd] in Hf. now rewrite Hf.
  - intros Hle c y v w Hin Hsel Hy. apply Hkeep. split; [assumption|].
    exists c, y, v, w. split; [reflexivity|]. split; [assumption|]. lia.
Qed.

(** ** The scenarios of the specification, and the properties at work *)

Lemma fetch_data_success w codes ind s e data n x :
  status_code (remote w (fetch_request codes ind s e)) = 200 ->
  json (remote w (fetch_request codes ind s e)) = Some data ->
  py_len data = Ok n -> 1 < n -> py_getitem_1 data = Ok x ->
  snd (fetch_data codes ind s e w) = Ok x.
Proof.
  intros Hs Hj Hl Hn Hx. rewrite fetch_data_unfold. cbv zeta.
  rewrite Hs, Hj, Hl. cbn. destruct (Z.ltb_spec 1 n); [assumption|lia].
Qed.

(** Scenario A: one record fetched and normalized. *)
Example scenario_A :
  snd (fetch_data ["AFG"] "SP.POP.TOTL" 2020 2020 (serving_world [afg_2020]))
  = Ok (series_value [afg_2020])
  /\ process_data [afg_2020]
     = Ok (mkDataFrame ["Country Code"; "Year"; "Value"] [afg_2020_row]).
Proof. split; reflexivity. Qed.

(** Scenario B: India has no migration figure and gets NaN. *)
Example scenario_B : merged_df population_table migration_table = Ok merged_table.
Proof. reflexivity. Qed.

(** Scenario C as the code runs it: the failed fetch gives the empty series,
    and the join then raises. *)
Example scenario_C :
  snd (fetch_data ["AFG"; "IND"] "SM.POP.NETM" 1960 2023 failing_world)
  = Ok (series_value [])
  /\ build_merged [afg_2020] [] = Raise (KeyError "Country Code").
Proof. split; reflexivity. Qed.

(** A series whose rows are all dropped still gives the three columns: only
    the empty series loses them. *)
Lemma process_data_all_dropped r s :
  (forall r', In r' (r :: s) -> no_missing (selected r') = false) ->
  process_data (r :: s) = Ok (mkDataFrame ["Country Code"; "Year"; "Value"] []).
Proof.
  intros H. rewrite process_data_cons.
  assert (E : filter no_missing (map selected (r :: s)) = []).
  { revert H. generalize (r :: s). intros l H.
    induction l as [|a l IH]; [reflexivity|]. cbn.
    rewrite (H a (or_introl eq_refl)). apply IH. intros; apply H; now right. }
  rewrite E. reflexivity.
Qed.

(** With such a table on the right the join succeeds, and every row of the
    left table comes out with NaN for the right metric. *)
Lemma merged_df_right_without_rows T1 :
  is_MetricTable T1 = true ->
  exists M,
    merged_df T1 (mkDataFrame ["Country Code"; "Year"; "Value"] []) = Ok M
    /\ forall row,
        In row (rows M) <->
        exists a b v, row = [a; b; v; VFloat nan] /\ In [a; b; v] (rows T1).
Proof.
  intros H1.
  destruct (merged_df_spec T1 (mkDataFrame ["Country Code"; "Year"; "Value"] []) H1 eq_refl)
    as (M & HM & _ & Hrows).
  exists M. split; [assumption|]. intros row. rewrite Hrows. cbn. split.
  - intros [(a & b & v & w & _ & _ & [])
           |[(a & b & v & -> & Hl & _)|(a & b & w & _ & [] & _)]].
    now exists a, b, v.
  - intros (a & b & v & -> & Hl). right; left. exists a, b, v. auto.
Qed.

(** What [process_data] returns for a non-empty series is a MetricTable. *)
Lemma process_data_is_MetricTable r s t :
  process_data (r :: s) = Ok t -> is_MetricTable t = true.
Proof.
  intros Hp. apply is_MetricTable_spec.
  split; [eapply process_data_columns, Hp|].
  apply Forall_forall. intros row Hin.
  destruct (Forall2_In_r _ _ _ _ (process_data_rows _ _ Hp) Hin)
    as (r' & _ & c & d & n & y & f & _ & _ & _ & _ & _ & _ & Hf & ->).
  now exists c, y, f.
Qed.

(** The join of two MetricTables is a MergedTable. *)
Lemma merged_df_is_MergedTable T1 T2 M :
  is_MetricTable T1 = true -> is_MetricTable T2 = true ->
  merged_df T1 T2 = Ok M -> is_MergedTable M = true.
Proof.
  intros H1 H2 HM.
  destruct (merged_df_spec T1 T2 H1 H2) as (M' & HM' & Hc & Hrows).
  rewrite HM in HM'. injection HM' as <-.
  apply is_MergedTable_spec. split; [assumption|].
  apply Forall_forall. intros row Hin. apply Hrows in Hin.
  destruct Hin as [(a & b & v & w & -> & Hl & Hr)
                  |[(a & b & v & -> & Hl & _)|(a & b & w & -> & Hr & _)]].
  - destruct (metric_rows_of _ _ H1 Hl) as (c & y & f & E & _).
    destruct (metric_rows_of _ _ H2 Hr) as (c' & y' & f' & E' & _).
    injection E as -> -> ->. injection E' as _ _ ->. now exists c, y, f, f'.
  - destruct (metric_rows_of _ _ H1 Hl) as (c & y & f & E & _).
    injection E as -> -> ->. now exists c, y, f, nan.
  - destruct (metric_rows_of _ _ H2 Hr) as (c & y & f & E & _).
    injection E as -> -> ->. now exists c, y, nan, f.
Qed.

(** *** The theorems above at the scenario data *)

Lemma fetch_data_fail_soft_witness :
  status_code (remote failing_world
                 (fetch_request ["AFG"; "IND"] "SM.POP.NETM" 1960 2023)) <> 200
  /\ snd (fetch_data ["AFG"; "IND"] "SM.POP.NETM" 1960 2023 failing_world)
     = Ok (series_value []).
Proof.
  split; [cbn; lia|].
  apply (fetch_data_fail_soft failing_world ["AFG"; "IND"] "SM.POP.NETM" 1960 2023).
  left. cbn. lia.
Defined.

Lemma process_data_no_nulls_witness :
  process_data [afg_2020; ind_2020_null]
  = Ok (mkDataFrame ["Country Code"; "Year"; "Value"] [afg_2020_row])
  /\ exists code year val,
       afg_2020_row = [code; year; val]
       /\ loc (mkDataFrame ["Country Code"; "Year"; "Value"] [afg_2020_row])
              afg_2020_row "Country Code" = Ok code
       /\ loc (mkDataFrame ["Country Code"; "Year"; "Value"] [afg_2020_row])
              afg_2020_row "Year" = Ok year
       /\ loc (mkDataFrame ["Country Code"; "Year"; "Value"] [afg_2020_row])
              afg_2020_row "Value" = Ok val
       /\ isna code = false /\ isna year = false /\ isna val = false.
Proof.
  split; [reflexivity|].
  apply (process_data_no_nulls [afg_2020; ind_2020_null]
           (mkDataFrame ["Country Code"; "Year"; "Value"] [afg_2020_row])
           afg_2020_row).
  - reflexivity.
  - cbn. left. reflexivity.
Defined.

Lemma process_data_keeps_complete_records_witness :
  existsb isna (map snd (other afg_2020)) = true
  /\ exists t y f,
       process_data [afg_2020; ind_2020_null] = Ok t
       /\ to_int (VStr "2020") = Ok (VInt y)
       /\ to_float (of_number (NInt 38972230)) = Ok (VFloat f)
       /\ In [VStr "AFG"; VInt y; VFloat f] (rows t).
Proof.
  split; [reflexivity|].
  apply (process_data_keeps_complete_records [afg_2020; ind_2020_null]
           afg_2020 "AFG" "2020" (NInt 38972230)).
  - intros r' c' d' n' [<-|[<-|[]]] Hc Hd Hn Hna.
    + injection Hd as <-. injection Hn as <-.
      split; [exists 2020|exists (float_lit 38972230)]; reflexivity.
    + discriminate Hn.
  - cbn. left. reflexivity.
  - reflexivity.
  - reflexivity.
  - reflexivity.
  - reflexivity.
Defined.

Lemma merged_df_keys_union_witness :
  is_MetricTable population_table = true
  /\ is_MetricTable migration_table = true
  /\ exists M,
       merged_df population_table migration_table = Ok M
       /\ (forall k, In k (keys M) <->
                     In k (keys population_table) \/ In k (keys migration_table))
       /\ (forall row, In row (rows M) -> ~ In (key row) (keys migration_table) ->
             loc M row "Value_Net Migration" = Ok (VFloat nan))
       /\ (forall row, In row (rows M) -> ~ In (key row) (keys population_table) ->
             loc M row "Value_Population" = Ok (VFloat nan)).
Proof.
  split; [reflexivity|]. split; [reflexivity|].
  apply (merged_df_keys_union population_table migration_table); reflexivity.
Defined.

Lemma merged_df_value_fidelity_witness :
  In [VStr "IND"; VInt 2020] (keys population_table)
  /\ exists M,
       merged_df population_table migration_table = Ok M
       /\ (In [VStr "IND"; VInt 2020] (keys population_table) ->
           ~ In [VStr "IND"; VInt 2020] (keys migration_table) ->
           (forall row, In row (rows M) -> key row = [VStr "IND"; VInt 2020] ->
              (exists src, In src (rows population_table)
                           /\ key src = [VStr "IND"; VInt 2020]
                           /\ loc M row "Value_Population"
                              = loc population_table src "Value")
              /\ loc M row "Value_Net Migration" = Ok (VFloat nan))
           /\ (forall src, In src (rows population_table) ->
                 key src = [VStr "IND"; VInt 2020] ->
                 exists row, In row (rows M) /\ key row = [VStr "IND"; VInt 2020]
                             /\ loc M row "Value_Population"
                                = loc population_table src "Value"
                             /\ loc M row "Value_Net Migration" = Ok (VFloat nan)))
       /\ (In [VStr "IND"; VInt 2020] (keys migration_table) ->
           ~ In [VStr "IND"; VInt 2020] (keys population_table) ->
           (forall row, In row (rows M) -> key row = [VStr "IND"; VInt 2020] ->
              (exists src, In src (rows migration_table)
                           /\ key src = [VStr "IND"; VInt 2020]
                           /\ loc M row "Value_Net Migration"
                              = loc migration_table src "Value")
              /\ loc M row "Value_Population" = Ok (VFloat nan))
           /\ (forall src, In src (rows migration_table) ->
                 key src = [VStr "IND"; VInt 2020] ->
                 exists row, In row (rows M) /\ key row = [VStr "IND"; VInt 2020]
                             /\ loc M row "Value_Net Migration"
                                = loc migration_table src "Value"
                             /\ loc M row "Value_Population" = Ok (VFloat nan))).
Proof.
  split; [cbn; right; left; reflexivity|].
  apply (merged_df_value_fidelity population_table migration_table
           [VStr "IND"; VInt 2020]); reflexivity.
Defined.

Lemma update_dashboard_inclusive_witness :
  is_MergedTable (df (mkGlobals merged_table)) = true
  /\ exists f,
       update_dashboard ["AFG"] [2020; 2020] (mkGlobals merged_table)
       = (mkGlobals merged_table, Ok f)
       /\ columns f = columns (df (mkGlobals merged_table))
       /\ (forall row,
             In row (rows f) <->
             In row (rows (df (mkGlobals merged_table)))
             /\ exists c y v w, row = [VStr c; VInt y; v; w]
                                /\ In c ["AFG"] /\ 2020 <= y <= 2020)
       /\ (2020 <= 2020 -> forall c y v w,
             In [VStr c; VInt y; v; w] (rows (df (mkGlobals merged_table))) ->
             In c ["AFG"] ->
             y = 2020 \/ y = 2020 -> In [VStr c; VInt y; v; w] (rows f)).
Proof.
  split; [reflexivity|].
  apply (update_dashboard_inclusive ["AFG"] 2020 2020 (mkGlobals merged_table)).
  reflexivity.
Defined.

(** * Further properties of the code *)

(** ** The fetcher: the ways out of [fetch_data] *)

(** X1. A 200 response whose envelope is a list of two or more elements makes
    [fetch_data] return the second element as it is, after the one request
    and without printing; elements after the second are ignored. *)
Theorem fetch_data_returns_second_element w codes ind s e meta recs more :
  status_code (remote w (fetch_request codes ind s e)) = 200 ->
  json (remote w (fetch_request codes ind s e)) = Some (VList (meta :: recs :: more)) ->
  fetch_data codes ind s e w
  = (mkWorld (remote w) (trace w ++ [Requested (fetch_request codes ind s e)])%list,
     Ok recs).
Proof.
  intros Hs Hj. rewrite fetch_data_unfold. cbv zeta. rewrite Hs, Hj.
  cbn [Z.eqb Pos.eqb py_len List.length].
  destruct (Z.ltb_spec 1 (Z.of_nat (S (S (List.length more))))); [reflexivity|lia].
Qed.

(** X2. The fail-soft policy stops at the status code: a 200 response whose
    body is not JSON makes [fetch_data] raise the decoder's error, with
    nothing printed. *)
Theorem fetch_data_body_not_json w codes ind s e :
  status_code (remote w (fetch_request codes ind s e)) = 200 ->
  json (remote w (fetch_request codes ind s e)) = None ->
  fetch_data codes ind s e w
  = (mkWorld (remote w) (trace w ++ [Requested (fetch_request codes ind s e)])%list,
     Raise JSONDecodeError).
Proof.
  intros Hs Hj. rewrite fetch_data_unfold. cbv zeta. now rewrite Hs, Hj.
Qed.

(** X3. A 200 response whose JSON is null, a boolean or a number makes
    [fetch_data] raise [TypeError] (it has no length), and one whose JSON is
    an object of two or more members makes it raise [KeyError] (it has no
    member 1); neither is turned into the empty series. *)
Theorem fetch_data_envelope_not_a_list w codes ind s e v :
  status_code (remote w (fetch_request codes ind s e)) = 200 ->
  json (remote w (fetch_request codes ind s e)) = Some v ->
  match v with
  | VNone | VBool _ | VInt _ | VFloat _ =>
    snd (fetch_data codes ind s e w) = Raise TypeError
  | VDict (_ :: _ :: _) =>
    snd (fetch_data codes ind s e w) = Raise (KeyError "1")
  | _ => True
  end.
Proof.
  intros Hs Hj.
  destruct v as [|b|z|f|t|l|d]; try exact I;
    try (rewrite fetch_data_unfold; cbv zeta; now rewrite Hs, Hj).
  destruct d as [|m1 [|m2 d]]; try exact I.
  rewrite fetch_data_unfold. cbv zeta. rewrite Hs, Hj.
  cbn [Z.eqb Pos.eqb py_len List.length].
  destruct (Z.ltb_spec 1 (Z.of_nat (S (S (List.length d))))); [reflexivity|lia].
Qed.

(** X4. On a status other than 200 the world after [fetch_data] holds the
    request followed by exactly one printed line, which names the indicator
    and the status code. *)
Theorem fetch_data_failure_trace w codes ind s e :
  status_code (remote w (fetch_request codes ind s e)) <> 200 ->
  fst (fetch_data codes ind s e w)
  = mkWorld (remote w)
      (trace w
       ++ [ Requested (fetch_request codes ind s e);
            Printed ("Failed to fetch data for indicator " ++ ind
                     ++ ". HTTP Status code: "
                     ++ str_of_int (status_code
                                      (remote w (fetch_request codes ind s e)))) ])%list.
Proof.
  intros H. rewrite fetch_data_unfold. cbv zeta.
  destruct (Z.eqb_spec (status_code (remote w (fetch_request codes ind s e))) 200)
    as [E|E]; [contradiction|].
  cbn. now rewrite <- app_assoc.
Qed.

(** X5. On a 200 response whose envelope has a length of one or zero the world
    after [fetch_data] holds the request followed by exactly one printed
    line, "No data found for indicator ...!", naming the indicator. *)
Theorem fetch_data_no_data_trace w codes ind s e data n :
  status_code (remote w (fetch_request codes ind s e)) = 200 ->
  json (remote w (fetch_request codes ind s e)) = Some data ->
  py_len data = Ok n -> n <= 1 ->
  fst (fetch_data codes ind s e w)
  = mkWorld (remote w)
      (trace w
       ++ [ Requested (fetch_request codes ind s e);
            Printed ("No data found for indicator " ++ ind ++ "!") ])%list.
Proof.
  intros Hs Hj Hl Hn. rewrite fetch_data_unfold. cbv zeta. rewrite Hs, Hj, Hl.
  cbn [Z.eqb Pos.eqb]. destruct (Z.ltb_spec 1 n); [lia|].
  cbn. now rewrite <- app_assoc.
Qed.

(** X6. Whatever the service answers, [fetch_data] leaves the service as it
    is and extends the trace by the request followed by at most one printed
    line; it prints only when it returns the empty list. *)
Theorem fetch_data_trace_shape w codes ind s e :
  exists notices,
    fst (fetch_data codes ind s e w)
    = mkWorld (remote w)
        (trace w ++ Requested (fetch_request codes ind s e) :: notices)%list
    /\ (notices = []
        \/ (exists line, notices = [Printed line])
           /\ snd (fetch_data codes ind s e w) = Ok (VList [])).
Proof.
  rewrite fetch_data_unfold. cbv zeta.
  destruct (status_code _ =? 200).
  - destruct (json _) as [data|]; [|exists []; split; [reflexivity|now left]].
    destruct (py_len data) as [n|x]; [|exists []; split; [reflexivity|now left]].
    destruct (1 <? n); [exists []; split; [reflexivity|now left]|].
    eexists [_]. cbn. rewrite <- app_assoc. split; [reflexivity|].
    right. split; [now eexists|reflexivity].
  - eexists [_]. cbn. rewrite <- app_assoc. split; [reflexivity|].
    right. split; [now eexists|reflexivity].
Qed.

(** ** [process_data]: what the returned table holds *)

Lemma to_int_range v y : to_int v = Ok (VInt y) -> - 2 ^ 63 <= y < 2 ^ 63.
Proof.
  unfold to_int. destruct (match v with VStr _ => _ | _ => _ end) as [z|x];
    cbn [rbind]; [|discriminate].
  destruct ((- 2 ^ 63 <=? z) && (z <? 2 ^ 63))%bool eqn:E; [|discriminate].
  intros H; injection H as <-. apply andb_true_iff in E.
  destruct E as [E1 E2]. apply Z.leb_le in E1. apply Z.ltb_lt in E2. lia.
Qed.

(** X7. The table [process_data] returns for a non-empty series has the
    columns Country Code, Year, Value, and every row holds a string, an
    integer within the int64 range and a float that is not NaN. *)
Theorem process_data_typed r s t :
  process_data (r :: s) = Ok t ->
  columns t = ["Country Code"; "Year"; "Value"]
  /\ forall row, In row (rows t) ->
       exists c y f, row = [VStr c; VInt y; VFloat f]
                     /\ - 2 ^ 63 <= y < 2 ^ 63
                     /\ f <> nan.
Proof.
  intros Hp. split; [eapply process_data_columns, Hp|].
  intros row Hin.
  destruct (Forall2_In_r _ _ _ _ (process_data_rows _ _ Hp) Hin)
    as (r' & _ & c & d & n & y & f & _ & _ & _ & _ & Hy & _ & Hf & ->).
  exists c, y, f. split; [reflexivity|]. split; [eapply to_int_range, Hy|].
  intros ->. discriminate Hf.
Qed.

(** X8. [process_data] invents no row: every row of the returned table comes
    from a record of the series whose three fields are present, with the
    record's code, its date read as an integer and its value as a float. *)
Theorem process_data_rows_from_records s t row :
  process_data s = Ok t ->
  In row (rows t) ->
  exists r c d n y f,
    In r s
    /\ countryiso3code r = Some c /\ date r = Some d /\ value r = Some n
    /\ to_int (VStr d) = Ok (VInt y)
    /\ to_float (of_number n) = Ok (VFloat f)
    /\ row = [VStr c; VInt y; VFloat f].
Proof.
  intros Hp Hin.
  destruct (Forall2_In_r _ _ _ _ (process_data_rows _ _ Hp) Hin)
    as (r & Hr & c & d & n & y & f & Hc & Hd & Hn & _ & Hy & Hf & _ & ->).
  apply filter_In in Hr. destruct Hr as [Hr _].
  exists r, c, d, n, y, f. auto 10.
Qed.

(** X9. Rows keep the order of the series and are neither merged nor
    repeated: the Country Code column of the result is the list of codes of
    the records without a missing field, in series order, so the table has
    one row per such record and never more rows than the series has
    records. *)
Theorem process_data_order s t :
  process_data s = Ok t ->
  map (fun row => cell row 0) (rows t)
  = map (fun r => of_option VStr (countryiso3code r))
        (filter (fun r => no_missing (selected r)) s)
  /\ (List.length (rows t) <= List.length s)%nat.
Proof.
  intros Hp. pose proof (process_data_rows _ _ Hp) as H.
  assert (Hlen : List.length (rows t)
                 = List.length (filter (fun r => no_missing (selected r)) s)).
  { symmetry. eapply Forall2_length, H. }
  split.
  - clear Hlen Hp. induction H as [|r row l l' Hr _ IH]; [reflexivity|].
    destruct Hr as (c & d & n & y & f & Hc & _ & _ & _ & _ & _ & _ & ->).
    cbn [map]. rewrite Hc, IH. reflexivity.
  - rewrite Hlen. apply filter_length_le.
Qed.

Lemma no_missing_selected_false r :
  countryiso3code r = None \/ date r = None \/ value r = None
  \/ value r = Some (NFloat nan) ->
  no_missing (selected r) = false.
Proof.
  destruct (no_missing (selected r)) eqn:E; [|reflexivity].
  apply no_missing_selected in E. destruct E as (c & d & n & Hc & Hd & Hn & Hna).
  intros [H|[H|[H|H]]]; try congruence.
  rewrite Hn in H. injection H as ->. discriminate Hna.
Qed.

(** X10. A non-empty series in which every record lacks its code, its date
    or its value (null, or the float NaN) gives a table with the three
    columns and no rows, whatever the dates that are present hold. *)
Theorem process_data_every_record_incomplete r s :
  (forall r', In r' (r :: s) ->
     countryiso3code r' = None \/ date r' = None \/ value r' = None
     \/ value r' = Some (NFloat nan)) ->
  process_data (r :: s) = Ok (mkDataFrame ["Country Code"; "Year"; "Value"] []).
Proof.
  intros H. apply process_data_all_dropped.
  intros r' Hin. apply no_missing_selected_false, H, Hin.
Qed.

(** X11. [process_data] returns a table exactly when, for every record with
    its three fields present, the date can be read as an int64 and the value
    converted to a float; one such record with an unreadable date makes the
    whole call raise. *)
Theorem process_data_returns_iff s :
  (exists t, process_data s = Ok t) <->
  (forall r c d n,
     In r s -> countryiso3code r = Some c -> date r = Some d ->
     value r = Some n -> isna (of_number n) = false ->
     (exists y, to_int (VStr d) = Ok (VInt y))
     /\ (exists f, to_float (of_number n) = Ok (VFloat f))).
Proof.
  split; [|apply process_data_total].
  intros (t & Hp) r c d n Hin Hc Hd Hn Hna.
  assert (Hkeep : In r (filter (fun r => no_missing (selected r)) s)).
  { apply filter_In. split; [assumption|].
    apply no_missing_selected. now exists c, d, n. }
  destruct (Forall2_In_l _ _ _ _ (process_data_rows _ _ Hp) Hkeep)
    as (row & _ & c' & d' & n' & y & f & _ & Hd' & Hn' & _ & Hy & Hf & _).
  rewrite Hd in Hd'. rewrite Hn in Hn'. injection Hd' as <-. injection Hn' as <-.
  split; [now exists y|now exists f].
Qed.

(** ** The outer join: symmetry, matched keys, uniqueness *)

(** X12. The join is symmetric in its rows: joining the two MetricTables in
    the other order gives the same rows with the two value cells swapped. *)
Theorem merged_df_swap T1 T2 :
  is_MetricTable T1 = true -> is_MetricTable T2 = true ->
  exists M12 M21,
    merged_df T1 T2 = Ok M12
    /\ merged_df T2 T1 = Ok M21
    /\ forall a b v w, In [a; b; v; w] (rows M12) <-> In [a; b; w; v] (rows M21).
Proof.
  intros H1 H2.
  destruct (merged_df_spec T1 T2 H1 H2) as (M12 & E12 & _ & R12).
  destruct (merged_df_spec T2 T1 H2 H1) as (M21 & E21 & _ & R21).
  exists M12, M21. split; [assumption|]. split; [assumption|].
  intros a b v w. rewrite R12, R21. split.
  - intros [(a' & b' & v' & w' & E & Hl & Hr)
           |[(a' & b' & v' & E & Hl & Hn)|(a' & b' & w' & E & Hr & Hn)]];
      injection E as -> -> -> ->.
    + left. now exists a', b', w', v'.
    + right; right. now exists a', b', v'.
    + right; left. now exists a', b', w'.
  - intros [(a' & b' & v' & w' & E & Hl & Hr)
           |[(a' & b' & v' & E & Hl & Hn)|(a' & b' & w' & E & Hr & Hn)]];
      injection E as -> -> -> ->.
    + left. now exists a', b', w', v'.
    + right; right. now exists a', b', v'.
    + right; left. now exists a', b', w'.
Qed.

(** X13. Matched keys: the merged rows in which both metrics are present are
    exactly the pairs of a row of the first table and a row of the second
    table with the same country code and year, each with its own value. *)
Theorem merged_df_matched_rows T1 T2 :
  is_MetricTable T1 = true -> is_MetricTable T2 = true ->
  exists M,
    merged_df T1 T2 = Ok M
    /\ forall a b v w,
        In [a; b; v; w] (rows M) /\ isna v = false /\ isna w = false
        <-> In [a; b; v] (rows T1) /\ In [a; b; w] (rows T2).
Proof.
  intros H1 H2. destruct (merged_df_spec T1 T2 H1 H2) as (M & HM & _ & Hrows).
  exists M. split; [assumption|]. intros a b v w. rewrite Hrows. split.
  - intros [[(a' & b' & v' & w' & E & Hl & Hr)
            |[(a' & b' & v' & E & Hl & Hn)|(a' & b' & w' & E & Hr & Hn)]] [Hv Hw]];
      injection E as -> -> -> ->; try discriminate. now split.
  - intros [Hl Hr].
    destruct (metric_rows_of _ _ H1 Hl) as (c & y & f & E & Hf).
    destruct (metric_rows_of _ _ H2 Hr) as (c' & y' & f' & E' & Hf').
    injection E as -> -> ->. injection E' as _ _ ->.
    split; [|now split]. left. now exists (VStr c), (VInt y), (VFloat f), (VFloat f').
Qed.

(** X14. Every row of the join of two MetricTables holds a string, an
    integer and two floats, and at least one of the two metrics is present:
    no row is NaN on both sides. *)
Theorem merged_df_row_shape T1 T2 M row :
  is_MetricTable T1 = true -> is_MetricTable T2 = true ->
  merged_df T1 T2 = Ok M ->
  In row (rows M) ->
  exists c y v w,
    row = [VStr c; VInt y; VFloat v; VFloat w]
    /\ (isna (VFloat v) = false \/ isna (VFloat w) = false).
Proof.
  intros H1 H2 HM Hin.
  destruct (merged_df_spec T1 T2 H1 H2) as (M' & HM' & _ & Hrows).
  rewrite HM in HM'. injection HM' as <-. apply Hrows in Hin.
  destruct Hin as [(a & b & v & w & -> & Hl & Hr)
                  |[(a & b & v & -> & Hl & _)|(a & b & w & -> & Hr & _)]].
  - destruct (metric_rows_of _ _ H1 Hl) as (c & y & f & E & Hf).
    destruct (metric_rows_of _ _ H2 Hr) as (c' & y' & f' & E' & _).
    injection E as -> -> ->. injection E' as _ _ ->. exists c, y, f, f'. auto.
  - destruct (metric_rows_of _ _ H1 Hl) as (c & y & f & E & Hf).
    injection E as -> -> ->. exists c, y, f, nan. auto.
  - destruct (metric_rows_of _ _ H2 Hr) as (c & y & f & E & Hf).
    injection E as -> -> ->. exists c, y, nan, f. auto.
Qed.

Lemma no_match_without_key r c y :
  Forall metric_row r ->
  ~ In [VStr c; VInt y] (map key r) ->
  filter (fun rr => keys_eqb [VStr c; VInt y] (key rr)) r = [].
Proof.
  intros Hr Hn. destruct (filter _ r) as [|m ms] eqn:E; [reflexivity|].
  exfalso. apply Hn.
  assert (Hm : In m (m :: ms)) by now left.
  rewrite <- E in Hm. apply filter_In in Hm. destruct Hm as [Hin Hk].
  rewrite Forall_forall in Hr. destruct (Hr _ Hin) as (c' & y' & f & -> & _).
  apply keys_eqb_metric in Hk. destruct Hk as [<- <-].
  apply in_map_iff. now exists [VStr c; VInt y; VFloat f].
Qed.

Lemma one_match_at_most r c y :
  Forall metric_row r -> NoDup (map key r) ->
  (List.length (filter (fun rr => keys_eqb [VStr c; VInt y] (key rr)) r) <= 1)%nat.
Proof.
  induction 1 as [|rr r (c' & y' & f & -> & _) Hr IH]; intros Hnd; cbn [filter].
  - cbn. lia.
  - inversion Hnd as [|k ks Hnotin Hnd']; subst.
    destruct (keys_eqb [VStr c; VInt y] (key [VStr c'; VInt y'; VFloat f])) eqn:E.
    + apply keys_eqb_metric in E. destruct E as [<- <-].
      rewrite (no_match_without_key r c y Hr Hnotin). cbn. lia.
    + now apply IH.
Qed.

(** With unique keys on the right, each left row gives one row of the join,
    with the left row's key. *)
Lemma left_part_keys l r :
  Forall metric_row l -> Forall metric_row r -> NoDup (map key r) ->
  map key
    (flat_map (fun lr =>
                 match filter (fun rr => keys_eqb (key lr) (key rr)) r with
                 | [] => [(lr ++ repeat (VFloat nan) 1)%list]
                 | ms => map (fun rr => (lr ++ non_key_cells ["Country Code"; "Year"]
                                                 ["Country Code"; "Year"; "Value"] rr)%list) ms
                 end) l)
  = map key l.
Proof.
  intros Hl Hr Hnd. induction Hl as [|lr l (c & y & f & -> & _) _ IH]; [reflexivity|].
  cbn [flat_map]. rewrite map_app, IH. clear IH.
  change (key [VStr c; VInt y; VFloat f]) with [VStr c; VInt y].
  pose proof (one_match_at_most r c y Hr Hnd) as Hone.
  destruct (filter _ r) as [|m [|m' ms]]; cbn in Hone; try lia; reflexivity.
Qed.

Lemma right_part_keys l r :
  Forall metric_row r ->
  map key
    (flat_map (fun rr =>
                 if existsb (fun lr => keys_eqb (key lr) (key rr)) l
                 then []
                 else [(left_cells_of_right ["Country Code"; "Year"]
                          ["Country Code"; "Year"; "Value"]
                          ["Country Code"; "Year"; "Value"] rr
                        ++ non_key_cells ["Country Code"; "Year"]
                             ["Country Code"; "Year"; "Value"] rr)%list]) r)
  = map key (filter (fun rr => negb (existsb (fun lr => keys_eqb (key lr) (key rr)) l)) r).
Proof.
  induction 1 as [|rr r (c & y & f & -> & _) _ IH]; [reflexivity|].
  cbn [flat_map filter].
  destruct (existsb _ l); cbn [negb app map]; [exact IH|].
  rewrite IH. reflexivity.
Qed.

Lemma NoDup_map_filter {A B} (f : A -> B) (p : A -> bool) l :
  NoDup (map f l) -> NoDup (map f (filter p l)).
Proof.
  induction l as [|a l IH]; cbn; [auto|].
  intros H. inversion H as [|x xs Hn Hnd]; subst.
  destruct (p a); cbn; [|auto].
  constructor; [|auto]. intros Hin. apply Hn.
  apply in_map_iff in Hin. destruct Hin as (b & E & Hb).
  apply filter_In in Hb. apply in_map_iff. exists b. tauto.
Qed.

(** X15. One row per country and year: when neither MetricTable repeats a
    key, the join repeats none either, and it has one row for each row of the
    first table plus one for each row of the second whose key the first
    lacks. *)
Theorem merged_df_unique_keys T1 T2 :
  is_MetricTable T1 = true -> is_MetricTable T2 = true ->
  NoDup (keys T1) -> NoDup (keys T2) ->
  exists M,
    merged_df T1 T2 = Ok M
    /\ NoDup (keys M)
    /\ List.length (rows M)
       = (List.length (rows T1) + List.length (right_only T1 T2))%nat.
Proof.
  intros H1 H2 N1 N2. apply is_MetricTable_spec in H1, H2.
  destruct T1 as [c1 l], T2 as [c2 r]. cbn [columns rows] in *.
  destruct H1 as [-> Hl], H2 as [-> Hr]. unfold keys in *. cbn [rows] in *.
  eexists. split; [apply merged_df_unfold; assumption|]. cbn [rows].
  assert (Hk : map (key_of [0%nat; 1%nat])
                 (merge_outer_rows ["Country Code"; "Year"]
                    ["Country Code"; "Year"; "Value"] ["Country Code"; "Year"; "Value"]
                    [0%nat; 1%nat] [0%nat; 1%nat] l r)
               = (map key l
                  ++ map key (right_only (mkDataFrame ["Country Code"; "Year"; "Value"] l)
                                         (mkDataFrame ["Country Code"; "Year"; "Value"] r)))%list).
  { unfold merge_outer_rows. cbv zeta. rewrite map_app.
    f_equal; [apply (left_part_keys l r Hl Hr N2)|apply (right_part_keys l r Hr)]. }
  split.
  - rewrite Hk. apply NoDup_app; [exact N1|now apply NoDup_map_filter|].
    intros k Hin1 Hin2. apply in_map_iff in Hin2. destruct Hin2 as (rr & <- & Hrr).
    apply filter_In in Hrr. destruct Hrr as [Hrr Hex]. cbn [rows] in Hex.
    apply negb_true_iff in Hex.
    apply in_map_iff in Hin1. destruct Hin1 as (lr & Hkey & Hlr).
    assert (Ht : existsb (fun lr => keys_eqb (key lr) (key rr)) l = true).
    { apply existsb_exists. exists lr. split; [assumption|].
      rewrite Forall_forall in Hl, Hr.
      destruct (Hl _ Hlr) as (c & y & f & -> & _).
      destruct (Hr _ Hrr) as (c' & y' & f' & -> & _).
      injection Hkey as -> ->. now apply keys_eqb_metric. }
    rewrite Ht in Hex. discriminate.
  - apply (f_equal (@List.length _)) in Hk.
    rewrite length_app, !length_map in Hk. exact Hk.
Qed.

(** X16. A table with the three columns and no rows joins without error on
    either side: up to the order of rows, the join holds the rows of the
    other table once each, with NaN in the place of the metric of the table
    without rows. *)
Theorem merged_df_with_rowless_table T :
  is_MetricTable T = true ->
  exists Ml Mr,
    merged_df T (mkDataFrame ["Country Code"; "Year"; "Value"] []) = Ok Ml
    /\ merged_df (mkDataFrame ["Country Code"; "Year"; "Value"] []) T = Ok Mr
    /\ Permutation (rows Ml) (map (fun row => row ++ [VFloat nan])%list (rows T))
    /\ Permutation (rows Mr)
         (map (fun row => firstn 2 row ++ VFloat nan :: skipn 2 row)%list (rows T)).
Proof.
  intros H. apply is_MetricTable_spec in H. destruct T as [c l].
  cbn [columns rows] in *. destruct H as [-> Hl].
  do 2 eexists.
  split; [apply merged_df_unfold; [assumption|constructor]|].
  split; [apply merged_df_unfold; [constructor|assumption]|].
  cbn [rows]. unfold merge_outer_rows. cbv zeta. cbn [flat_map filter app].
  rewrite app_nil_r. split.
  - match goal with |- Permutation ?a ?b => assert (E : a = b) end;
      [|rewrite E; apply Permutation_refl].
    induction Hl as [|row l _ _ IH]; [reflexivity|].
    cbn [flat_map map]. rewrite IH. reflexivity.
  - match goal with |- Permutation ?a ?b => assert (E : a = b) end;
      [|rewrite E; apply Permutation_refl].
    induction Hl as [|row l (c & y & f & -> & _) _ IH]; [reflexivity|].
    change (flat_map ?h ([VStr c; VInt y; VFloat f] :: l))
      with (h [VStr c; VInt y; VFloat f] ++ flat_map h l)%list.
    rewrite IH. reflexivity.
Qed.

Lemma index_of_raises cs c e : index_of cs c = Raise e -> e = KeyError c.
Proof.
  induction cs as [|c' cs IH]; cbn; [intros H; now injection H as <-|].
  destruct (String.eqb c c'); [discriminate|].
  destruct (index_of cs c) as [i|x]; cbn; [discriminate|].
  intros H; injection H as <-. now apply IH.
Qed.

Lemma merged_df_left_without_columns t :
  merged_df (mkDataFrame [] []) t = Raise (KeyError "Country Code").
Proof.
  unfold merged_df, merge. cbn [columns merge_keys].
  destruct (index_of (columns t) "Country Code") as [i|x] eqn:E; [reflexivity|].
  apply index_of_raises in E. now subst.
Qed.

Lemma merged_df_right_without_columns t :
  merged_df t (mkDataFrame [] []) = Raise (KeyError "Country Code").
Proof. reflexivity. Qed.

(** X17. With an empty population series the join raises as well: whenever
    the migration series is processed without error, [KeyError] is raised on
    the first key label, whether or not the migration series is empty. *)
Theorem build_merged_empty_population migration :
  build_merged [] migration =
  try _ <- process_data migration ;; Raise (KeyError "Country Code").
Proof.
  unfold build_merged. cbn [process_data rbind].
  destruct (process_data migration) as [t|x]; [|reflexivity].
  cbn [rbind]. apply merged_df_left_without_columns.
Qed.

Lemma build_merged_Ok population migration M :
  build_merged population migration = Ok M ->
  exists tp tm,
    process_data population = Ok tp /\ process_data migration = Ok tm
    /\ is_MetricTable tp = true /\ is_MetricTable tm = true
    /\ merged_df tp tm = Ok M.
Proof.
  unfold build_merged. intros H.
  destruct (process_data population) as [tp|x] eqn:Ep; [|discriminate].
  destruct (process_data migration) as [tm|x] eqn:Em; [|discriminate].
  cbn [rbind] in H.
  destruct population as [|rp sp].
  { injection Ep as <-. rewrite merged_df_left_without_columns in H. discriminate. }
  destruct migration as [|rm sm].
  { injection Em as <-. rewrite merged_df_right_without_columns in H. discriminate. }
  exists tp, tm. split; [reflexivity|]. split; [reflexivity|].
  split; [eapply process_data_is_MetricTable, Ep|].
  split; [eapply process_data_is_MetricTable, Em|]. exact H.
Qed.

(** X18. From the two series to the merged table: when lines 50-64 succeed,
    the result is a MergedTable, and every record of either series with its
    three fields present is found in it, as a row with the record's code and
    year that carries the record's value under the metric of its series. *)
Theorem build_merged_keeps_records population migration M :
  build_merged population migration = Ok M ->
  is_MergedTable M = true
  /\ (forall r c d n,
        In r population -> countryiso3code r = Some c -> date r = Some d ->
        value r = Some n -> isna (of_number n) = false ->
        exists y f w,
          to_int (VStr d) = Ok (VInt y)
          /\ to_float (of_number n) = Ok (VFloat f)
          /\ In [VStr c; VInt y; VFloat f; w] (rows M))
  /\ (forall r c d n,
        In r migration -> countryiso3code r = Some c -> date r = Some d ->
        value r = Some n -> isna (of_number n) = false ->
        exists y f v,
          to_int (VStr d) = Ok (VInt y)
          /\ to_float (of_number n) = Ok (VFloat f)
          /\ In [VStr c; VInt y; v; VFloat f] (rows M)).
Proof.
  intros H. destruct (build_merged_Ok _ _ _ H) as (tp & tm & Ep & Em & Hp & Hm & HM).
  destruct (merged_df_spec tp tm Hp Hm) as (M' & HM' & _ & Hrows).
  rewrite HM in HM'. injection HM' as <-.
  split; [exact (merged_df_is_MergedTable tp tm M Hp Hm HM)|].
  assert (Hrow : forall s t r c d n,
             process_data s = Ok t -> In r s ->
             countryiso3code r = Some c -> date r = Some d -> value r = Some n ->
             isna (of_number n) = false ->
             exists y f, to_int (VStr d) = Ok (VInt y)
                         /\ to_float (of_number n) = Ok (VFloat f)
                         /\ In [VStr c; VInt y; VFloat f] (rows t)).
  { intros s t r c d n Hs Hin Hc Hd Hn Hna.
    assert (Hkeep : In r (filter (fun r => no_missing (selected r)) s)).
    { apply filter_In. split; [assumption|].
      apply no_missing_selected. now exists c, d, n. }
    destruct (Forall2_In_l _ _ _ _ (process_data_rows _ _ Hs) Hkeep)
      as (row & Hrow & c' & d' & n' & y & f & Hc' & Hd' & Hn' & _ & Hy & Hf & _ & ->).
    rewrite Hc in Hc'. rewrite Hd in Hd'. rewrite Hn in Hn'.
    injection Hc' as <-. injection Hd' as <-. injection Hn' as <-.
    now exists y, f. }
  split.
  - intros r c d n Hin Hc Hd Hn Hna.
    destruct (Hrow _ _ _ _ _ _ Ep Hin Hc Hd Hn Hna) as (y & f & Hy & Hf & Hl).
    exists y, f.
    destruct (metric_key_dec tm c y Hm) as [(g & Hg)|Hnot].
    + exists (VFloat g). repeat split; try assumption.
      apply Hrows. left. now exists (VStr c), (VInt y), (VFloat f), (VFloat g).
    + exists (VFloat nan). repeat split; try assumption.
      apply Hrows. right; left. now exists (VStr c), (VInt y), (VFloat f).
  - intros r c d n Hin Hc Hd Hn Hna.
    destruct (Hrow _ _ _ _ _ _ Em Hin Hc Hd Hn Hna) as (y & f & Hy & Hf & Hr).
    exists y, f.
    destruct (metric_key_dec tp c y Hp) as [(g & Hg)|Hnot].
    + exists (VFloat g). repeat split; try assumption.
      apply Hrows. left. now exists (VStr c), (VInt y), (VFloat g), (VFloat f).
    + exists (VFloat nan). repeat split; try assumption.
      apply Hrows. right; right. now exists (VStr c), (VInt y), (VFloat f).
Qed.

(** ** The filter: bounds, monotonicity, the table *)

(** On a MergedTable the filter succeeds for any two bounds and keeps the
    rows [keep_row] keeps. *)
Lemma update_dashboard_merged cs lo hi more g :
  is_MergedTable (df g) = true ->
  snd (update_dashboard cs (lo :: hi :: more) g)
  = Ok (mkDataFrame (columns (df g)) (filter (keep_row 0 1 cs lo hi) (rows (df g)))).
Proof.
  intros H. apply is_MergedTable_spec in H. destruct H as [Hc Hrows].
  rewrite Forall_forall in Hrows.
  apply update_dashboard_rowwise. exists 0%nat, 1%nat, lo, hi.
  rewrite Hc. repeat split.
  intros row Hin. destruct (Hrows row Hin) as (c & y & v & w & ->).
  cbn. eauto.
Qed.

Lemma keep_merged_row cs lo hi d row :
  is_MergedTable d = true -> In row (rows d) ->
  exists c y v w,
    row = [VStr c; VInt y; VFloat v; VFloat w]
    /\ (keep_row 0 1 cs lo hi row = true <-> In c cs /\ lo <= y <= hi).
Proof.
  intros H Hin. apply is_MergedTable_spec in H. destruct H as [_ Hrows].
  rewrite Forall_forall in Hrows. destruct (Hrows row Hin) as (c & y & v & w & ->).
  exists c, y, v, w. split; [reflexivity|].
  unfold keep_row. cbn.
  rewrite !andb_true_iff, label_in_spec, !Z.leb_le. tauto.
Qed.

(** X19. A year range with fewer than two entries makes the callback raise
    [IndexError], whatever the selection of countries. *)
Theorem update_dashboard_short_range cs yr g :
  is_MergedTable (df g) = true ->
  (List.length yr < 2)%nat ->
  snd (update_dashboard cs yr g) = Raise IndexError.
Proof.
  intros H Hlen. apply is_MergedTable_spec in H. destruct H as [Hc Hrows].
  rewrite Forall_forall in Hrows.
  unfold update_dashboard, getitem_column. cbn [snd]. rewrite Hc.
  change (index_of merged_columns "Country Code") with (@Ok nat 0%nat).
  change (index_of merged_columns "Year") with (@Ok nat 1%nat).
  cbn [rbind].
  destruct yr as [|lo [|hi more]]; [reflexivity| |cbn in Hlen; lia].
  cbn [list_getitem nth_error rbind].
  destruct (rmap_total (fun v => cell_ge v lo)
              (map (fun row => cell row 1) (rows (df g)))) as (m2 & ->);
    [|reflexivity].
  intros v Hv. apply in_map_iff in Hv. destruct Hv as (row & <- & Hin).
  destruct (Hrows row Hin) as (c & y & a & b & ->). cbn. eauto.
Qed.

Lemma filter_none {A} (p : A -> bool) l :
  (forall a, In a l -> p a = false) -> filter p l = [].
Proof.
  induction l as [|a l IH]; intros H; cbn; [reflexivity|].
  rewrite (H a (or_introl eq_refl)). apply IH. intros; apply H; now right.
Qed.

Lemma filter_all {A} (p : A -> bool) l :
  (forall a, In a l -> p a = true) -> filter p l = l.
Proof.
  induction l as [|a l IH]; intros H; cbn; [reflexivity|].
  rewrite (H a (or_introl eq_refl)). f_equal. apply IH. intros; apply H; now right.
Qed.

(** X20. An empty selection of countries, or a range whose lower bound
    exceeds the upper one, gives a frame with the four columns and no rows,
    not an error. *)
Theorem update_dashboard_nothing_selected cs lo hi g :
  is_MergedTable (df g) = true ->
  cs = [] \/ hi < lo ->
  snd (update_dashboard cs [lo; hi] g) = Ok (mkDataFrame merged_columns []).
Proof.
  intros H Hsel. rewrite (update_dashboard_merged cs lo hi [] g H).
  pose proof (proj1 (is_MergedTable_spec _) H) as [-> _]. f_equal. f_equal.
  apply filter_none. intros row Hin.
  destruct (keep_merged_row cs lo hi (df g) row H Hin) as (c & y & v & w & -> & Hk).
  destruct (keep_row 0 1 cs lo hi _); [|reflexivity].
  destruct (proj1 Hk eq_refl) as [Hc Hy].
  destruct Hsel as [->|Hlt]; [contradiction|lia].
Qed.

(** X21. Widening the selection never loses a row: with more countries
    selected and a wider year range, every row kept before is kept again. *)
Theorem update_dashboard_monotone cs cs' lo lo' hi hi' g :
  is_MergedTable (df g) = true ->
  incl cs cs' -> lo' <= lo -> hi <= hi' ->
  exists f f',
    snd (update_dashboard cs [lo; hi] g) = Ok f
    /\ snd (update_dashboard cs' [lo'; hi'] g) = Ok f'
    /\ incl (rows f) (rows f').
Proof.
  intros H Hcs Hlo Hhi.
  rewrite (update_dashboard_merged cs lo hi [] g H).
  rewrite (update_dashboard_merged cs' lo' hi' [] g H).
  do 2 eexists. split; [reflexivity|]. split; [reflexivity|].
  cbn [rows]. intros row Hin. apply filter_In in Hin. destruct Hin as [Hin Hk].
  apply filter_In. split; [assumption|].
  destruct (keep_merged_row cs lo hi (df g) row H Hin) as (c & y & v & w & -> & Hk1).
  destruct (keep_merged_row cs' lo' hi' (df g) _ H Hin) as (c' & y' & v' & w' & E & Hk2).
  injection E as <- <- <- <-.
  apply Hk2. apply Hk1 in Hk. destruct Hk as [Hc Hy].
  split; [now apply Hcs|lia].
Qed.

(** X22. When every row of the table has a selected country and a year
    within the range, the callback returns the table itself: all rows, in
    their order, under the same columns. *)
Theorem update_dashboard_everything_selected cs lo hi g :
  is_MergedTable (df g) = true ->
  (forall c y v w, In [VStr c; VInt y; v; w] (rows (df g)) ->
                   In c cs /\ lo <= y <= hi) ->
  snd (update_dashboard cs [lo; hi] g) = Ok (df g).
Proof.
  intros H Hall. rewrite (update_dashboard_merged cs lo hi [] g H).
  rewrite filter_all; [now destruct (df g)|].
  intros row Hin.
  destruct (keep_merged_row cs lo hi (df g) row H Hin) as (c & y & v & w & -> & Hk).
  apply Hk. now apply (Hall c y (VFloat v) (VFloat w)).
Qed.

(** X23. The filtered frame is again a MergedTable, so the columns the
    figures and the summary read exist in it, and its rows are rows of the
    table in their original order. *)
Theorem update_dashboard_result_shape cs yr g f :
  is_MergedTable (df g) = true ->
  snd (update_dashboard cs yr g) = Ok f ->
  is_MergedTable f = true
  /\ columns f = columns (df g)
  /\ exists keep, rows f = filter keep (rows (df g)).
Proof.
  intros H Hf. apply update_dashboard_rowwise in Hf.
  destruct Hf as (i & j & lo & hi & _ & _ & _ & _ & _ & ->).
  apply is_MergedTable_spec in H. destruct H as [Hc Hrows].
  split; [|split].
  - apply is_MergedTable_spec. cbn [columns rows]. split; [assumption|].
    rewrite Forall_forall in *. intros row Hin. apply filter_In in Hin.
    now apply Hrows.
  - reflexivity.
  - now eexists.
Qed.

(** X24. The data table of the callback.  On a MergedTable the filter
    returns a frame; if a figure call raises on that frame the callback raises
    the same error and gives no table; if the figure calls and the summary
    return, the table holds one record per kept row and nothing else: a
    record with the four labelled cells is in it exactly when its row is in
    the MergedTable, its country is selected and its year lies within the
    bounds, both included, and the column descriptions are those of the four
    merged columns. *)
Theorem update_dashboard_table_records (Figures Summary : Type)
    (make_figures : DataFrame -> result Figures)
    (make_summary : DataFrame -> result Summary) cs lo hi g :
  is_MergedTable (df g) = true ->
  exists f,
    snd (update_dashboard cs [lo; hi] g) = Ok f
    /\ (forall e, make_figures f = Raise e ->
                  update_dashboard_outputs Figures Summary make_figures make_summary
                    cs [lo; hi] g = Raise e)
    /\ (forall figs sm,
          make_figures f = Ok figs -> make_summary f = Ok sm ->
          exists data,
            update_dashboard_outputs Figures Summary make_figures make_summary
              cs [lo; hi] g
            = Ok (figs, data,
                  map (fun col => [("name", VStr col); ("id", VStr col)]) merged_columns,
                  sm)
            /\ List.length data = List.length (rows f)
            /\ forall rec,
                In rec data <->
                exists c y v w,
                  rec = [ ("Country Code", VStr c); ("Year", VInt y);
                          ("Value_Population", v); ("Value_Net Migration", w) ]
                  /\ In [VStr c; VInt y; v; w] (rows (df g))
                  /\ In c cs /\ lo <= y <= hi).
Proof.
  intros H. eexists. split; [apply (update_dashboard_merged cs lo hi [] g H)|].
  unfold update_dashboard_outputs.
  rewrite (update_dashboard_merged cs lo hi [] g H). cbn [rbind].
  split; [intros e ->; reflexivity|].
  intros figs sm -> ->. cbn [rbind].
  pose proof (proj1 (is_MergedTable_spec _) H) as [Hc _].
  unfold to_dict_records, table_columns. cbn [columns rows]. rewrite Hc.
  eexists. split; [reflexivity|]. split; [apply length_map|].
  intros rec. rewrite in_map_iff. split.
  - intros (row & <- & Hin). apply filter_In in Hin. destruct Hin as [Hin Hk].
    destruct (keep_merged_row cs lo hi (df g) row H Hin) as (c & y & v & w & -> & Hk').
    apply Hk' in Hk. exists c, y, (VFloat v), (VFloat w). auto.
  - intros (c & y & v & w & -> & Hin & Hsel & Hy).
    exists [VStr c; VInt y; v; w]. split; [reflexivity|].
    apply filter_In. split; [assumption|].
    destruct (keep_merged_row cs lo hi (df g) _ H Hin) as (c' & y' & v' & w' & E & Hk').
    injection E as <- <- -> ->. apply Hk'. auto.
Qed.

(** ** Integers written and read back *)

Lemma digits_acc u : forall a,
  digits (list_ascii_of_string (NilEmpty.string_of_uint u)) (Zpos a) true
  = Some (Zpos (Pos.of_uint_acc u a)).
Proof.
  induction u as [ | u IH | u IH | u IH | u IH | u IH | u IH | u IH | u IH | u IH | u IH ]; intros a;
    [reflexivity|..];
    cbn [NilEmpty.string_of_uint list_ascii_of_string digits Pos.of_uint_acc];
    match goal with
    | |- context [digit_of ?c] =>
      let d := eval vm_compute in (digit_of c) in change (digit_of c) with d
    end; cbv iota beta;
    match goal with
    | |- digits _ ?x true = Some (Zpos (Pos.of_uint_acc _ ?y)) =>
      replace x with (Zpos y) by lia
    end; apply IH.
Qed.

Lemma digits_zero u : forall b,
  u <> Decimal.Nil \/ b = true ->
  digits (list_ascii_of_string (NilEmpty.string_of_uint u)) 0 b
  = Some (Z.of_N (Pos.of_uint u)).
Proof.
  induction u as [ | u IH | u IH | u IH | u IH | u IH | u IH | u IH | u IH | u IH | u IH ]; intros b Hb;
    [destruct Hb as [Hb | ->]; [contradiction|reflexivity]
    |apply (IH true); now right
    |..];
    cbn [NilEmpty.string_of_uint list_ascii_of_string digits Pos.of_uint];
    match goal with
    | |- context [digit_of ?c] =>
      let d := eval vm_compute in (digit_of c) in change (digit_of c) with d
    end; cbv iota beta; cbn [Z.mul Z.add Z.of_N]; apply digits_acc.
Qed.

Lemma chars_not_space u :
  Forall (fun c => is_space c = false)
         (list_ascii_of_string (NilEmpty.string_of_uint u)).
Proof.
  induction u; cbn [NilEmpty.string_of_uint list_ascii_of_string];
    constructor; try assumption; reflexivity.
Qed.

Lemma lstrip_id l : Forall (fun c => is_space c = false) l -> lstrip l = l.
Proof. destruct 1 as [|c l Hc _]; cbn; [reflexivity|now rewrite Hc]. Qed.

Lemma strip_id l : Forall (fun c => is_space c = false) l -> strip l = l.
Proof.
  intros H. unfold strip. rewrite (lstrip_id l H).
  rewrite lstrip_id; [apply rev_involutive|now apply Forall_rev].
Qed.

(** The text of a non-empty decimal begins with a digit, not with a sign. *)
Lemma unsigned_text u :
  u <> Decimal.Nil ->
  int_of_str (NilEmpty.string_of_uint u) = Ok (Z.of_N (Pos.of_uint u))
  /\ int_of_str (String "-" (NilEmpty.string_of_uint u))
     = Ok (- Z.of_N (Pos.of_uint u)).
Proof.
  intros Hu. unfold int_of_str. split.
  - rewrite (strip_id _ (chars_not_space u)).
    pose proof (digits_zero u false (or_introl Hu)) as Hd.
    destruct u; [contradiction|..];
      cbn [NilEmpty.string_of_uint list_ascii_of_string] in Hd |- *;
      cbv iota beta zeta; rewrite Hd; reflexivity.
  - cbn [list_ascii_of_string]. rewrite strip_id.
    + rewrite (digits_zero u false (or_introl Hu)). reflexivity.
    + constructor; [reflexivity|apply chars_not_space].
Qed.

Lemma int_of_str_str_of_int z : int_of_str (str_of_int z) = Ok z.
Proof.
  unfold str_of_int. destruct z as [|p|p]; [reflexivity|..];
    cbn [Z.to_int NilZero.string_of_int];
    pose proof (Unsigned.to_uint_nonnil p) as Hn;
    destruct (unsigned_text (Pos.to_uint p) Hn) as [Hpos Hneg];
    rewrite DecimalPos.Unsigned.of_to in Hpos, Hneg;
    (replace (NilZero.string_of_uint (Pos.to_uint p))
       with (NilEmpty.string_of_uint (Pos.to_uint p))
       by (destruct (Pos.to_uint p); [contradiction|reflexivity..]));
    assumption.
Qed.

(** X26. A year written in decimal, as the f-strings of the program write
    integers, is read back by the Year conversion as the same integer,
    provided it fits an int64. *)
Theorem to_int_str_of_int z :
  - 2 ^ 63 <= z < 2 ^ 63 ->
  to_int (VStr (str_of_int z)) = Ok (VInt z).
Proof.
  intros [Hlo Hhi]. unfold to_int. rewrite int_of_str_str_of_int. cbn [rbind].
  apply Z.leb_le in Hlo. apply Z.ltb_lt in Hhi. now rewrite Hlo, Hhi.
Qed.

(** ** Integers stored as floats *)

Lemma digits2_iter_xO m k :
  Zpos (digits2_pos (Pos.iter xO m k)) = Zpos (digits2_pos m) + Zpos k.
Proof.
  induction k as [|k IH] using Pos.peano_ind.
  - cbn. lia.
  - rewrite Pos.iter_succ. cbn [digits2_pos]. lia.
Qed.

Lemma iter_xO_pow2 m k : Zpos (Pos.iter xO m k) = Zpos m * 2 ^ Zpos k.
Proof.
  induction k as [|k IH] using Pos.peano_ind.
  - cbn. lia.
  - rewrite Pos.iter_succ, Pos2Z.inj_xO, IH, Pos2Z.inj_succ, Z.pow_succ_r; lia.
Qed.

Lemma digits2_bound m : Zpos m < 2 ^ 53 -> Zpos (digits2_pos m) <= 53.
Proof.
  intros H.
  assert (E : forall p, digits2_pos p = Pos.size p)
    by (induction p as [p IH|p IH|]; cbn [digits2_pos Pos.size]; rewrite ?IH; reflexivity).
  specialize (E m).
  rewrite E. pose proof (Pos.size_le m) as Hle.
  apply Pos2Z.pos_le_pos in Hle. rewrite Pos2Z.inj_pow in Hle.
  change (Z.pos m~0) with (2 * Z.pos m) in Hle.
  destruct (Z.le_gt_cases (Zpos (Pos.size m)) 53) as [?|Hgt]; [assumption|].
  assert (2 ^ 54 <= 2 ^ Zpos (Pos.size m)) by (apply Z.pow_le_mono_r; lia).
  change (2 ^ 54) with (2 * 2 ^ 53) in *. lia.
Qed.

Lemma binary_round_aux_exact s mz ez :
  Zpos (digits2_pos mz) = 53 -> - 1074 <= ez <= 971 ->
  binary_round_aux prec64 emax64 s (Zpos mz) ez loc_Exact = S754_finite s mz ez.
Proof.
  intros Hd He. unfold binary_round_aux, shr_fexp, prec64, emax64.
  cbn [shr_record_of_loc Zdigits2]. rewrite Hd.
  replace (fexp 53 1024 (53 + ez) - ez) with 0 by (unfold fexp, emin; lia).
  cbn [shr shr_m loc_of_shr_record round_nearest_even shr_r shr_s shr_record_of_loc Zdigits2].
  rewrite Hd.
  replace (fexp 53 1024 (53 + ez) - ez) with 0 by (unfold fexp, emin; lia).
  cbn [shr shr_m].
  destruct (Z.leb_spec ez (1024 - 53)); [reflexivity|lia].
Qed.

Lemma binary_round_exact s m :
  Zpos m < 2 ^ 53 ->
  exists mz ez,
    binary_round prec64 emax64 s m 0 = S754_finite s mz ez
    /\ -52 <= ez <= 0
    /\ Zpos mz = Zpos m * 2 ^ (- ez).
Proof.
  intros H. pose proof (digits2_bound m H) as Hd.
  unfold binary_round, shl_align, prec64, emax64.
  replace (fexp 53 1024 (Zpos (digits2_pos m) + 0)) with (Zpos (digits2_pos m) - 53)
    by (unfold fexp, emin; lia).
  destruct (Zpos (digits2_pos m) - 53 - 0) as [|k|k] eqn:E; [|lia|].
  - exists m, 0. split; [|split; [lia|cbn; lia]].
    apply binary_round_aux_exact; lia.
  - exists (Pos.iter xO m k), (Zpos (digits2_pos m) - 53).
    split; [|split; [lia|]].
    + apply binary_round_aux_exact; [rewrite digits2_iter_xO|]; lia.
    + rewrite iter_xO_pow2. f_equal. f_equal. lia.
Qed.

(** X27. Integer values below 2^53 in magnitude are stored exactly: the Value
    conversion turns such an integer into a float, and reading that float as
    an integer gives the integer back. *)
Theorem int_of_float_of_int z :
  - 2 ^ 53 < z < 2 ^ 53 ->
  exists f, to_float (VInt z) = Ok (VFloat f) /\ int_of_float f = Ok z.
Proof.
  intros Hz. cbn [to_float]. unfold float_of_int, binary_normalize.
  destruct z as [|m|m].
  - exists (S754_zero false). split; reflexivity.
  - destruct (binary_round_exact false m) as (mz & ez & -> & He & Hm); [lia|].
    exists (S754_finite false mz ez). split; [reflexivity|].
    cbn [int_of_float]. f_equal.
    destruct (Z.leb_spec 0 ez).
    + assert (ez = 0) as -> by lia. cbn in Hm. rewrite Z.shiftl_0_r. lia.
    + rewrite Z.shiftr_div_pow2 by lia. rewrite Hm. apply Z.div_mul.
      apply Z.pow_nonzero; lia.
  - destruct (binary_round_exact true m) as (mz & ez & -> & He & Hm);
      [change (Zpos m) with (- Zneg m); lia|].
    exists (S754_finite true mz ez). split; [reflexivity|].
    cbn [int_of_float]. f_equal.
    destruct (Z.leb_spec 0 ez).
    + assert (ez = 0) as -> by lia. cbn in Hm. rewrite Z.shiftl_0_r. lia.
    + rewrite Z.shiftr_div_pow2 by lia. rewrite Hm. rewrite Z.div_mul; [lia|].
      apply Z.pow_nonzero; lia.
Qed.

(** ** Frames and records *)

Lemma add_labels_known ks : forall acc,
  incl ks acc -> fold_left add_label ks acc = acc.
Proof.
  induction ks as [|k ks IH]; intros acc H; cbn [fold_left]; [reflexivity|].
  unfold add_label at 2.
  rewrite (proj2 (label_in_spec k acc) (H k (or_introl eq_refl))).
  apply IH. intros x Hx. apply H. now right.
Qed.

(** X28. The records of the data table carry the whole frame: building a
    frame from the records [to_dict("records")] makes of a MergedTable with at
    least one row gives that MergedTable back, the four columns in their
    order and the rows in theirs. *)
Theorem DataFrame_of_to_dict_records d :
  is_MergedTable d = true ->
  rows d <> [] ->
  DataFrame_of_records (to_dict_records d) = d.
Proof.
  intros H Hne. apply is_MergedTable_spec in H. destruct d as [cs rs].
  cbn [columns rows] in *. destruct H as [-> Hrows].
  unfold DataFrame_of_records, to_dict_records. cbn [columns rows].
  assert (Hcols : fold_left (fun acc dct => fold_left add_label (map fst dct) acc)
                    (map (fun row => dict_of_items (combine merged_columns row)) rs) []
                  = merged_columns).
  { destruct rs as [|r0 rs]; [contradiction|].
    inversion Hrows as [|x xs (c & y & v & w & ->) Hrest]; subst.
    cbn [map fold_left].
    change (fold_left add_label
              (map fst (dict_of_items
                          (combine merged_columns
                             [VStr c; VInt y; VFloat v; VFloat w]))) [])
      with merged_columns.
    clear Hrows Hne. induction Hrest as [|r rs (c' & y' & v' & w' & ->) _ IH];
      [reflexivity|].
    cbn [map fold_left].
    rewrite add_labels_known; [exact IH|].
    intros x Hx. exact Hx. }
  rewrite Hcols. f_equal. clear Hcols Hne.
  induction Hrows as [|r rs (c & y & v & w & ->) _ IH]; [reflexivity|].
  cbn [map]. rewrite IH. reflexivity.
Qed.

(** ** The further properties at the scenario data *)

Lemma fetch_data_returns_second_element_witness :
  fetch_data ["AFG"] "SP.POP.TOTL" 2020 2020 (serving_world [afg_2020])
  = (mkWorld (remote (serving_world [afg_2020]))
       [Requested (fetch_request ["AFG"] "SP.POP.TOTL" 2020 2020)],
     Ok (series_value [afg_2020])).
Proof.
  apply (fetch_data_returns_second_element (serving_world [afg_2020])
           ["AFG"] "SP.POP.TOTL" 2020 2020 (VDict []) (series_value [afg_2020]) []);
    reflexivity.
Defined.

Lemma fetch_data_body_not_json_witness :
  fetch_data ["AFG"] "SP.POP.TOTL" 2020 2020 (answering_world None)
  = (mkWorld (remote (answering_world None))
       [Requested (fetch_request ["AFG"] "SP.POP.TOTL" 2020 2020)],
     Raise JSONDecodeError).
Proof.
  apply (fetch_data_body_not_json (answering_world None)
           ["AFG"] "SP.POP.TOTL" 2020 2020); reflexivity.
Defined.

Lemma fetch_data_envelope_not_a_list_witness :
  snd (fetch_data ["AFG"] "SP.POP.TOTL" 2020 2020 (answering_world (Some VNone)))
  = Raise TypeError
  /\ snd (fetch_data ["AFG"] "SP.POP.TOTL" 2020 2020
            (answering_world (Some (VDict [("page", VInt 1); ("pages", VInt 1)]))))
     = Raise (KeyError "1").
Proof.
  split.
  - exact (fetch_data_envelope_not_a_list (answering_world (Some VNone))
             ["AFG"] "SP.POP.TOTL" 2020 2020 VNone eq_refl eq_refl).
  - exact (fetch_data_envelope_not_a_list
             (answering_world (Some (VDict [("page", VInt 1); ("pages", VInt 1)])))
             ["AFG"] "SP.POP.TOTL" 2020 2020
             (VDict [("page", VInt 1); ("pages", VInt 1)]) eq_refl eq_refl).
Defined.

Lemma fetch_data_failure_trace_witness :
  fst (fetch_data ["AFG"; "IND"] "SM.POP.NETM" 1960 2023 failing_world)
  = mkWorld (remote failing_world)
      [ Requested (fetch_request ["AFG"; "IND"] "SM.POP.NETM" 1960 2023);
        Printed "Failed to fetch data for indicator SM.POP.NETM. HTTP Status code: 500" ].
Proof.
  apply (fetch_data_failure_trace failing_world ["AFG"; "IND"] "SM.POP.NETM" 1960 2023).
  cbn. lia.
Defined.

Lemma fetch_data_no_data_trace_witness :
  fst (fetch_data ["AFG"] "XX.UNKNOWN" 1960 2023 (answering_world (Some message_envelope)))
  = mkWorld (remote (answering_world (Some message_envelope)))
      [ Requested (fetch_request ["AFG"] "XX.UNKNOWN" 1960 2023);
        Printed "No data found for indicator XX.UNKNOWN!" ].
Proof.
  apply (fetch_data_no_data_trace (answering_world (Some message_envelope))
           ["AFG"] "XX.UNKNOWN" 1960 2023 message_envelope 1);
    [reflexivity|reflexivity|reflexivity|lia].
Defined.

Lemma process_data_typed_witness :
  columns (mkDataFrame ["Country Code"; "Year"; "Value"] [afg_2020_row])
  = ["Country Code"; "Year"; "Value"]
  /\ forall row,
       In row (rows (mkDataFrame ["Country Code"; "Year"; "Value"] [afg_2020_row])) ->
       exists c y f, row = [VStr c; VInt y; VFloat f]
                     /\ - 2 ^ 63 <= y < 2 ^ 63 /\ f <> nan.
Proof.
  apply (process_data_typed afg_2020 [ind_2020_null]
           (mkDataFrame ["Country Code"; "Year"; "Value"] [afg_2020_row])).
  reflexivity.
Defined.

Lemma process_data_rows_from_records_witness :
  exists r c d n y f,
    In r [afg_2020; ind_2020_null]
    /\ countryiso3code r = Some c /\ date r = Some d /\ value r = Some n
    /\ to_int (VStr d) = Ok (VInt y)
    /\ to_float (of_number n) = Ok (VFloat f)
    /\ afg_2020_row = [VStr c; VInt y; VFloat f].
Proof.
  apply (process_data_rows_from_records [afg_2020; ind_2020_null]
           (mkDataFrame ["Country Code"; "Year"; "Value"] [afg_2020_row])
           afg_2020_row).
  - reflexivity.
  - cbn. left. reflexivity.
Defined.

Lemma process_data_order_witness :
  map (fun row => cell row 0)
      (rows (mkDataFrame ["Country Code"; "Year"; "Value"] [afg_2020_row]))
  = map (fun r => of_option VStr (countryiso3code r))
        (filter (fun r => no_missing (selected r)) [ind_2020_null; afg_2020])
  /\ (List.length (rows (mkDataFrame ["Country Code"; "Year"; "Value"] [afg_2020_row]))
      <= List.length [ind_2020_null; afg_2020])%nat.
Proof.
  apply (process_data_order [ind_2020_null; afg_2020]
           (mkDataFrame ["Country Code"; "Year"; "Value"] [afg_2020_row])).
  reflexivity.
Defined.

Lemma process_data_every_record_incomplete_witness :
  process_data [ind_2020_null]
  = Ok (mkDataFrame ["Country Code"; "Year"; "Value"] []).
Proof.
  apply (process_data_every_record_incomplete ind_2020_null []).
  intros r' [<-|[]]. right; right; left. reflexivity.
Defined.

Lemma merged_df_swap_witness :
  exists M12 M21,
    merged_df population_table migration_table = Ok M12
    /\ merged_df migration_table population_table = Ok M21
    /\ forall a b v w, In [a; b; v; w] (rows M12) <-> In [a; b; w; v] (rows M21).
Proof.
  apply (merged_df_swap population_table migration_table); reflexivity.
Defined.

Lemma merged_df_matched_rows_witness :
  exists M,
    merged_df population_table migration_table = Ok M
    /\ forall a b v w,
        In [a; b; v; w] (rows M) /\ isna v = false /\ isna w = false
        <-> In [a; b; v] (rows population_table) /\ In [a; b; w] (rows migration_table).
Proof.
  apply (merged_df_matched_rows population_table migration_table); reflexivity.
Defined.

Lemma merged_df_row_shape_witness :
  exists c y v w,
    afg_merged_row = [VStr c; VInt y; VFloat v; VFloat w]
    /\ (isna (VFloat v) = false \/ isna (VFloat w) = false).
Proof.
  apply (merged_df_row_shape population_table migration_table merged_table
           afg_merged_row);
    [reflexivity|reflexivity|reflexivity|cbn; left; reflexivity].
Defined.

Lemma merged_df_unique_keys_witness :
  exists M,
    merged_df population_table migration_table = Ok M
    /\ NoDup (keys M)
    /\ List.length (rows M)
       = (List.length (rows population_table)
          + List.length (right_only population_table migration_table))%nat.
Proof.
  apply (merged_df_unique_keys population_table migration_table);
    [reflexivity|reflexivity| |].
  - constructor; [|constructor; [|constructor]]; cbn.
    + intros [H|[]]. discriminate H.
    + intros [].
  - constructor; [|constructor]. intros [].
Defined.

Lemma merged_df_with_rowless_table_witness :
  exists Ml Mr,
    merged_df population_table (mkDataFrame ["Country Code"; "Year"; "Value"] []) = Ok Ml
    /\ merged_df (mkDataFrame ["Country Code"; "Year"; "Value"] []) population_table = Ok Mr
    /\ Permutation (rows Ml)
         (map (fun row => row ++ [VFloat nan])%list (rows population_table))
    /\ Permutation (rows Mr)
         (map (fun row => firstn 2 row ++ VFloat nan :: skipn 2 row)%list
              (rows population_table)).
Proof.
  apply (merged_df_with_rowless_table population_table). reflexivity.
Defined.

Lemma build_merged_keeps_records_witness :
  is_MergedTable
    (mkDataFrame merged_columns
       [[VStr "AFG"; VInt 2020; VFloat (float_lit 38972230); VFloat (float_lit 38972230)]])
  = true.
Proof.
  exact (proj1 (build_merged_keeps_records [afg_2020; ind_2020_null] [afg_2020]
                  (mkDataFrame merged_columns
                     [[VStr "AFG"; VInt 2020; VFloat (float_lit 38972230);
                       VFloat (float_lit 38972230)]])
                  eq_refl)).
Defined.

Lemma update_dashboard_short_range_witness :
  snd (update_dashboard ["AFG"] [2020] (mkGlobals merged_table)) = Raise IndexError.
Proof.
  apply (update_dashboard_short_range ["AFG"] [2020] (mkGlobals merged_table));
    [reflexivity|cbn; lia].
Defined.

Lemma update_dashboard_nothing_selected_witness :
  snd (update_dashboard [] [1960; 2023] (mkGlobals merged_table))
  = Ok (mkDataFrame merged_columns []).
Proof.
  apply (update_dashboard_nothing_selected [] 1960 2023 (mkGlobals merged_table));
    [reflexivity|left; reflexivity].
Defined.

Lemma update_dashboard_monotone_witness :
  exists f f',
    snd (update_dashboard ["AFG"] [2020; 2020] (mkGlobals merged_table)) = Ok f
    /\ snd (update_dashboard ["AFG"; "IND"] [1960; 2023] (mkGlobals merged_table)) = Ok f'
    /\ incl (rows f) (rows f').
Proof.
  apply (update_dashboard_monotone ["AFG"] ["AFG"; "IND"] 2020 1960 2020 2023
           (mkGlobals merged_table)); [reflexivity| |lia|lia].
  intros x [<-|[]]. left. reflexivity.
Defined.

Lemma update_dashboard_everything_selected_witness :
  snd (update_dashboard ["AFG"; "IND"] [1960; 2023] (mkGlobals merged_table))
  = Ok merged_table.
Proof.
  apply (update_dashboard_everything_selected ["AFG"; "IND"] 1960 2023
           (mkGlobals merged_table)); [reflexivity|].
  intros c y v w [H|[H|[]]]; injection H as <- <- _ _; cbn; split; auto; lia.
Defined.

Lemma update_dashboard_result_shape_witness :
  is_MergedTable (mkDataFrame merged_columns [afg_merged_row]) = true
  /\ columns (mkDataFrame merged_columns [afg_merged_row])
     = columns (df (mkGlobals merged_table))
  /\ exists keep,
       rows (mkDataFrame merged_columns [afg_merged_row])
       = filter keep (rows (df (mkGlobals merged_table))).
Proof.
  apply (update_dashboard_result_shape ["AFG"] [2020; 2020] (mkGlobals merged_table)
           (mkDataFrame merged_columns [afg_merged_row])); reflexivity.
Defined.

Lemma update_dashboard_table_records_witness :
  exists f,
    snd (update_dashboard ["AFG"] [2020; 2020] (mkGlobals merged_table)) = Ok f
    /\ (forall e, (fun _ : DataFrame => Ok tt) f = Raise e ->
                  update_dashboard_outputs unit unit (fun _ => Ok tt) (fun _ => Ok tt)
                    ["AFG"] [2020; 2020] (mkGlobals merged_table) = Raise e)
    /\ (forall figs sm,
          (fun _ : DataFrame => Ok tt) f = Ok figs ->
          (fun _ : DataFrame => Ok tt) f = Ok sm ->
          exists data,
            update_dashboard_outputs unit unit (fun _ => Ok tt) (fun _ => Ok tt)
              ["AFG"] [2020; 2020] (mkGlobals merged_table)
            = Ok (figs, data,
                  map (fun col => [("name", VStr col); ("id", VStr col)]) merged_columns,
                  sm)
            /\ List.length data = List.length (rows f)
            /\ forall rec,
                In rec data <->
                exists c y v w,
                  rec = [ ("Country Code", VStr c); ("Year", VInt y);
                          ("Value_Population", v); ("Value_Net Migration", w) ]
                  /\ In [VStr c; VInt y; v; w] (rows (df (mkGlobals merged_table)))
                  /\ In c ["AFG"] /\ 2020 <= y <= 2020).
Proof.
  apply (update_dashboard_table_records unit unit (fun _ => Ok tt) (fun _ => Ok tt)
           ["AFG"] 2020 2020 (mkGlobals merged_table)).
  reflexivity.
Defined.

Lemma to_int_str_of_int_witness :
  to_int (VStr (str_of_int 2020)) = Ok (VInt 2020).
Proof. apply (to_int_str_of_int 2020). lia. Defined.

Lemma int_of_float_of_int_witness :
  exists f, to_float (VInt 38972230) = Ok (VFloat f) /\ int_of_float f = Ok 38972230.
Proof. apply (int_of_float_of_int 38972230). lia. Defined.

Lemma DataFrame_of_to_dict_records_witness :
  DataFrame_of_records (to_dict_records merged_table) = merged_table.
Proof.
  apply (DataFrame_of_to_dict_records merged_table); [reflexivity|discriminate].
Defined.
